(** * Skill evaluator: pattern scanner, layer scores and recommendation

    A shallow embedding of [scripts/security_scanner.py] (the pattern
    registry, [_scan_patterns], the five layer analyses, the layer score and
    the overall security score) and of the recommendation logic of
    [scripts/evaluate_skill.py], followed by the properties proved of them.

    Conventions.
    - A Python [str] is a [string]; its characters stand for code points
      (below 256).
    - The scanner's scores are Python floats that only ever hold integers
      ([100.0], [100.0 - deductions], [25.0 - critical * 5], ...): they are
      modelled in [Z], which is exact for these operations.
    - The evaluator blends arbitrary float scores with the weights 0.35,
      0.25, 0.20, 0.20: that part uses binary64 floats ([PrimFloat]), the
      arithmetic of the Python runtime.
    - [re.search] belongs to the Python library: the scanner is
      parameterised by it (section variable [re_search]).
    - The recommendation texts are held as the UTF-8 bytes of the source
      literals; a substring test on them is the one on the code points.
    - Where the scanner's score enters the evaluator it becomes the float
      that holds the same integer ([FloatOrder.Z_to_float]). *)

From Stdlib Require Import ZArith List String Ascii Bool Lia Floats.
From stdpp Require Import gmap strings list.
Set Warnings "-inexact-float".

Local Open Scope string_scope.
Local Open Scope list_scope.
Local Open Scope Z_scope.

(** ** Strings *)

Module Str.

(** The double-quote character, as a one-character string. *)
Definition dq : string := String (ascii_of_nat 34) EmptyString.
Definition dquote : ascii := ascii_of_nat 34.
Definition squote : ascii := ascii_of_nat 39.
Definition newline : ascii := ascii_of_nat 10.

(** [needle in hay] *)
Fixpoint contains (needle hay : string) : bool :=
  String.prefix needle hay ||
  match hay with
  | EmptyString => false
  | String _ rest => contains needle rest
  end.

(** [s.endswith(suffix)] *)
Definition endswith (s suffix : string) : bool :=
  String.prefix (String.rev suffix) (String.rev s).

(** [s.count(c)] for a one-character [c] *)
Fixpoint count (c : ascii) (s : string) : nat :=
  match s with
  | EmptyString => 0%nat
  | String a rest => ((if Ascii.eqb a c then 1 else 0) + count c rest)%nat
  end.

(** [s[:n]] *)
Fixpoint take (n : nat) (s : string) : string :=
  match n, s with
  | O, _ => EmptyString
  | S _, EmptyString => EmptyString
  | S n', String a rest => String a (take n' rest)
  end.

(** [s.split(sep)] for a one-character [sep]: never empty, and a trailing
    separator gives a trailing empty piece. *)
Fixpoint split (sep : ascii) (s : string) : list string :=
  match s with
  | EmptyString => [EmptyString]
  | String a rest =>
      if Ascii.eqb a sep then EmptyString :: split sep rest
      else match split sep rest with
           | piece :: pieces => String a piece :: pieces
           | [] => [String a EmptyString]
           end
  end.

(** [sep.join(pieces)] *)
Fixpoint join (sep : string) (pieces : list string) : string :=
  match pieces with
  | [] => EmptyString
  | [p] => p
  | p :: ps => p +:+ sep +:+ join sep ps
  end.

(** [s.replace(a, b)] for one-character [a] and [b] *)
Fixpoint replace (a b : ascii) (s : string) : string :=
  match s with
  | EmptyString => EmptyString
  | String c rest => String (if Ascii.eqb c a then b else c) (replace a b rest)
  end.

(** Whitespace per [str.isspace], for code points below 256. *)
Definition isspace (c : ascii) : bool :=
  let n := nat_of_ascii c in
  ((9 <=? n) && (n <=? 13) || (28 <=? n) && (n <=? 32)
   || (n =? 133) || (n =? 160))%nat.

Fixpoint lstrip (s : string) : string :=
  match s with
  | EmptyString => EmptyString
  | String c rest => if isspace c then lstrip rest else s
  end.

(** [s.strip()] *)
Definition strip (s : string) : string :=
  String.rev (lstrip (String.rev (lstrip s))).

Definition isupper (c : ascii) : bool :=
  let n := nat_of_ascii c in ((65 <=? n) && (n <=? 90))%nat.
Definition islower (c : ascii) : bool :=
  let n := nat_of_ascii c in ((97 <=? n) && (n <=? 122))%nat.
Definition upper (c : ascii) : ascii :=
  if islower c then ascii_of_nat (nat_of_ascii c - 32) else c.
Definition lower (c : ascii) : ascii :=
  if isupper c then ascii_of_nat (nat_of_ascii c + 32) else c.

(** [s.title()] on ASCII letters: a cased character is upper-cased when
    the character before it is uncased, lower-cased otherwise. *)
Fixpoint title_go (previous_is_cased : bool) (s : string) : string :=
  match s with
  | EmptyString => EmptyString
  | String c rest =>
      if islower c || isupper c then
        String (if previous_is_cased then lower c else upper c)
               (title_go true rest)
      else String c (title_go false rest)
  end.
Definition title : string -> string := title_go false.

End Str.

Import Str.

(** ** Data model ([security_scanner.py]) *)

(** The [severity] field is a [str] that only ever holds one of the four
    literals used in [PATTERNS]. *)
Inductive severity := CRITICAL | HIGH | MEDIUM | LOW.

Global Instance severity_eq_dec : EqDecision severity.
Proof. solve_decision. Defined.

(** [@dataclass SecurityIssue] *)
Record SecurityIssue := {
  issue_severity : severity;
  issue_category : string;
  issue_description : string;
  issue_file_path : string;
  issue_line_number : nat;
  issue_code_snippet : string;
  issue_recommendation : string
}.

(** [@dataclass LayerResult] *)
Record LayerResult := {
  layer_name : string;
  passed : bool;
  layer_issues : list SecurityIssue;
  layer_score : Z
}.

(** An entry of [PATTERNS]: [(pattern, severity, description)]. *)
Definition pattern : Type := string * severity * string.

Definition PATTERNS_items : list (string * list pattern) :=
  [
   ("command_injection",
     [
      ("os\.system\s*\(", CRITICAL, "os.system() with potential user input");
      ("subprocess\.(call|run|Popen).*shell\s*=\s*True", CRITICAL, "subprocess with shell=True");
      ("\beval\s*\(", CRITICAL, "eval() allows arbitrary code execution");
      ("\bexec\s*\(", CRITICAL, "exec() allows arbitrary code execution");
      ("__import__\s*\(", HIGH, "__import__() with dynamic module names");
      ("compile\s*\(", HIGH, "compile() with external code");
      ("\$\([^)]*\$", HIGH, "Command substitution with variables");
      ("`[^`]*\$", HIGH, "Backtick command substitution");
      (("bash\s+-c\s+[" +:+ dq +:+ "\'].*\$"), CRITICAL, "bash -c with variable expansion")
     ]);
   ("path_traversal",
     [
      ("\.\./", HIGH, "Directory traversal sequence");
      ("%2e%2e%2f", HIGH, "URL-encoded traversal");
      ("\.\.\\\\", HIGH, "Windows directory traversal");
      ("open\s*\([^)]*\)", MEDIUM, "File open without validation");
      ("Path\s*\([^)]*\)\s*(?!\.resolve\(\))", MEDIUM, "Path without resolve()")
     ]);
   ("arbitrary_file_ops",
     [
      ("shutil\.(copy|move|rmtree)", HIGH, "File operations without validation");
      ("os\.(remove|unlink|rmdir)", MEDIUM, "File deletion without checks");
      (("open\s*\([^)]*[,\s]+[" +:+ dq +:+ "\']w[" +:+ dq +:+ "\']"), MEDIUM, "File write without validation")
     ]);
   ("privilege_escalation",
     [
      ("\bsudo\b", CRITICAL, "Privilege elevation with sudo");
      ("\bsu\b(?!\w)", CRITICAL, "Switching to superuser");
      ("os\.setuid", CRITICAL, "Changing user ID");
      ("os\.chmod\s*\([^)]*0o777", HIGH, "Setting world-writable permissions");
      ("runas\s*\(", CRITICAL, "Windows privilege elevation")
     ]);
   ("env_var_manipulation",
     [
      (("os\.environ\s*\[\s*[" +:+ dq +:+ "\']PATH[" +:+ dq +:+ "\']"), HIGH, "Modifying PATH environment variable");
      (("os\.environ\s*\[\s*[" +:+ dq +:+ "\']LD_PRELOAD[" +:+ dq +:+ "\']"), CRITICAL, "Setting LD_PRELOAD");
      (("os\.environ\s*\[\s*[" +:+ dq +:+ "\']PYTHONPATH[" +:+ dq +:+ "\']"), HIGH, "Modifying PYTHONPATH")
     ]);
   ("dos_patterns",
     [
      ("while\s+True\s*:", MEDIUM, "Infinite loop without timeout");
      ("def\s+\w+\s*\([^)]*\)\s*:.*\1\s*\(", HIGH, "Potential recursive call");
      ("for\s+\w+\s+in\s+range\s*\(\s*[0-9]{7,}", MEDIUM, "Very large iteration")
     ]);
   ("information_disclosure",
     [
      ("print\s*\(.*(?:api[_-]?key|password|token|secret)", MEDIUM, "Logging sensitive data");
      ("logging\..*\(.*(?:api[_-]?key|password|token|secret)", MEDIUM, "Logging credentials");
      ("traceback\.print_exc\s*\(\)", LOW, "Exposing stack traces")
     ]);
   ("insecure_deserialization",
     [
      ("pickle\.loads\s*\(", HIGH, "Unsafe pickle deserialization");
      ("yaml\.load\s*\([^)]*\)(?!.*Loader\s*=)", HIGH, "yaml.load without SafeLoader");
      ("marshal\.loads\s*\(", HIGH, "Unsafe marshal deserialization")
     ]);
   ("hardcoded_credentials",
     [
      (("(?:api[_-]?key|password|token|secret)\s*=\s*[" +:+ dq +:+ "\'][^" +:+ dq +:+ "\']{8,}[" +:+ dq +:+ "\']"), HIGH, "Hardcoded credentials");
      ("(?:sk_live|pk_live)_[a-zA-Z0-9]{20,}", HIGH, "Hardcoded API key pattern");
      ("Bearer\s+[a-zA-Z0-9_-]{20,}", HIGH, "Hardcoded bearer token")
     ]);
   ("weak_crypto",
     [
      ("hashlib\.md5\s*\(", MEDIUM, "Weak hashing algorithm MD5");
      ("hashlib\.sha1\s*\(", MEDIUM, "Weak hashing algorithm SHA1");
      ("\brandom\.(?:randint|choice|random)\s*\(", LOW, "Insecure random for security")
     ]);
   ("ssrf",
     [
      ("requests\.(?:get|post)\s*\([^)]*\)", MEDIUM, "HTTP request without URL validation");
      ("urllib\.request\.urlopen\s*\(", MEDIUM, "URL fetch without validation");
      ("(?:localhost|127\.0\.0\.1|169\.254\.169\.254)", HIGH, "Internal network access")
     ]);
   ("xss_output",
     [
      ("<script[^>]*>", MEDIUM, "Script tag in output");
      ("javascript:", MEDIUM, "JavaScript protocol in URL");
      ("onerror\s*=", MEDIUM, "Event handler in output")
     ])
  ].

Definition recommendations_items : list (string * string) :=
  [
   ("command_injection",
    "Use subprocess with list arguments and shell=False. Validate all inputs.");
   ("path_traversal",
    "Use Path.resolve() and validate paths are within allowed directories.");
   ("arbitrary_file_ops",
    "Validate file paths and use temporary directories for untrusted operations.");
   ("privilege_escalation",
    "Remove privilege elevation. Run with least necessary privileges.");
   ("env_var_manipulation",
    "Avoid modifying system environment variables. Use configuration files.");
   ("dos_patterns",
    "Add timeouts, resource limits, and iteration bounds.");
   ("information_disclosure",
    "Never log credentials or sensitive data. Use proper error handling.");
   ("insecure_deserialization",
    "Use json or yaml.safe_load(). Never deserialize untrusted data.");
   ("hardcoded_credentials",
    "Use environment variables or secure secret management.");
   ("weak_crypto",
    "Use SHA-256 or stronger. Use secrets module for random values.");
   ("ssrf",
    "Validate and allowlist URLs. Restrict access to internal networks.");
   ("xss_output",
    "Escape HTML output. Sanitize user content before rendering.")
  ].

(** [SecurityScanner.PATTERNS], a dict keyed by category. *)
Definition PATTERNS : gmap string (list pattern) := list_to_map PATTERNS_items.

(** The dict local to [_get_recommendation]. *)
Definition recommendations : gmap string string :=
  list_to_map recommendations_items.

Definition _get_recommendation (category : string) : string :=
  default "Review and apply security best practices."
          (recommendations !! category).

(** ** The file tree *)

(** One entry below the scanned root: the components of its path relative
    to the root (the last one is its name), and what [read_text] gives for
    it, [None] when the read raises (unreadable file, a directory whose name
    ends in a script extension, ...).  A tree is the list of its entries, in
    the order [rglob] walks them. *)
Record entry := {
  parts : list string;
  read_text : option string
}.

Definition name (e : entry) : string := List.last (parts e) "".

(** [self.skill_dir.rglob('*' + ext)] *)
Definition rglob (tree : list entry) (ext : string) : list entry :=
  List.filter (fun e => endswith (name e) ext) tree.

Definition excluded_dirs : gset string :=
  {[ "node_modules"; "venv"; ".venv"; "__pycache__";
     ".git"; "dist"; "build"; ".eggs"; ".tox" ]}.

Definition excluded_files : gset string :=
  {[ "security_scanner.py"; "quality_checker.py" ]}.

(** The two [continue] tests at the head of the loop over files. *)
Definition excluded (e : entry) : bool :=
  let path_parts : gset string := list_to_set (parts e) in
  bool_decide (path_parts ∩ excluded_dirs ≠ ∅)
  || bool_decide (name e ∈ excluded_files).

(** The three globs, concatenated. *)
Definition script_files (tree : list entry) : list entry :=
  rglob tree ".py" ++ rglob tree ".sh" ++ rglob tree ".bash".

(** ** The scanner *)

(** What [re.search(pattern, line, re.IGNORECASE)] does: raise [re.error]
    (a pattern that does not compile), return [None], or return a match,
    of which the scanner only reads [match.start()]. *)
Inductive re_result := ReError | NoMatch | Match (start : nat).

(** How a block inside the [try] ends: normally, or by an exception that
    the [except Exception: pass] of [_scan_patterns] will swallow. *)
Inductive flow := Normal | Raised.

Section Scanner.

Variable re_search : string -> string -> re_result.

(** [if '# evaluator: ignore' in line or '# noqa' in line] *)
Definition suppressed (line : string) : bool :=
  contains "# evaluator: ignore" line || contains "# noqa" line.

(** The quote test on [line[:match.start()]]. *)
Definition in_string_literal (line : string) (start : nat) : bool :=
  let before_match := take start line in
  let single_quotes := count squote before_match in
  let double_quotes := count dquote before_match in
  ((single_quotes mod 2 =? 1) || (double_quotes mod 2 =? 1))%nat.

Definition make_issue (category : string) (e : entry) (line_num : nat)
    (line : string) (p : pattern) : SecurityIssue :=
  let '(_, sev, description) := p in
  {| issue_severity := sev;
     issue_category := title (replace "_" " " category);
     issue_description := description;
     issue_file_path := join "/" (parts e);
     issue_line_number := line_num;
     issue_code_snippet := take 100 (strip line);
     issue_recommendation := _get_recommendation category |}.

(** One iteration of the innermost loop: the issues it appends (none or
    one) and how it ends. *)
Definition visit (category : string) (e : entry) (line_num : nat)
    (line : string) (p : pattern) : list SecurityIssue * flow :=
  match re_search (fst (fst p)) line with
  | ReError => ([], Raised)
  | NoMatch => ([], Normal)
  | Match start =>
      if suppressed line then ([], Normal)
      else if in_string_literal line start then ([], Normal)
      else ([make_issue category e line_num line p], Normal)
  end.

(** [for pattern, severity, description in patterns: ...] on one line.
    Issues appended before an exception stay in [issues]. *)
Fixpoint scan_line (category : string) (e : entry) (line_num : nat)
    (line : string) (patterns : list pattern) : list SecurityIssue * flow :=
  match patterns with
  | [] => ([], Normal)
  | p :: rest =>
      match visit category e line_num line p with
      | (found, Raised) => (found, Raised)
      | (found, Normal) =>
          let '(more, fl) := scan_line category e line_num line rest in
          (found ++ more, fl)
      end
  end.

(** [for line_num, line in enumerate(lines, 1): ...], from [line_num]. *)
Fixpoint scan_lines (category : string) (e : entry)
    (patterns : list pattern) (line_num : nat) (lines : list string)
    : list SecurityIssue * flow :=
  match lines with
  | [] => ([], Normal)
  | line :: rest =>
      match scan_line category e line_num line patterns with
      | (found, Raised) => (found, Raised)
      | (found, Normal) =>
          let '(more, fl) :=
            scan_lines category e patterns (S line_num) rest in
          (found ++ more, fl)
      end
  end.

(** The [try] block for one file, with its [except Exception: pass]. *)
Definition scan_file (category : string) (patterns : list pattern)
    (e : entry) : list SecurityIssue :=
  match read_text e with
  | None => []
  | Some content =>
      let lines := split newline content in
      fst (scan_lines category e patterns 1 lines)
  end.

Definition _scan_patterns (tree : list entry) (category : string)
    : list SecurityIssue :=
  let patterns := default [] (PATTERNS !! category) in
  flat_map (fun e => if excluded e then [] else scan_file category patterns e)
           (script_files tree).


(** ** Layer score and overall score *)

(** The body of the loop of [_calculate_layer_score]. *)
Definition deduct (deductions : Z) (issue : SecurityIssue) : Z :=
  match issue_severity issue with
  | CRITICAL => deductions + 40
  | HIGH => deductions + 20
  | MEDIUM => deductions + 10
  | LOW => deductions + 5
  end.

Definition _calculate_layer_score (issues : list SecurityIssue) : Z :=
  match issues with
  | [] => 100
  | _ => let deductions := fold_left deduct issues 0 in
         Z.max 0 (100 - deductions)
  end.

(** [sum(1 for i in issues if i.severity == sev)] *)
Definition count_severity (sev : severity) (issues : list SecurityIssue) : Z :=
  Z.of_nat (length (List.filter
    (fun i => bool_decide (issue_severity i = sev)) issues)).

(** [calculate_security_score], on the value of [self.issues]. *)
Definition calculate_security_score (issues : list SecurityIssue) : Z :=
  match issues with
  | [] => 100
  | _ =>
      let critical := count_severity CRITICAL issues in
      let high := count_severity HIGH issues in
      let medium := count_severity MEDIUM issues in
      let low := count_severity LOW issues in
      if 0 <? critical then Z.min 25 (25 - critical * 5)
      else if 0 <? high then Z.min 50 (50 - high * 5)
      else if 0 <? medium then Z.min 75 (75 - medium * 3)
      else if 0 <? low then Z.min 90 (90 - low * 2)
      else 100
  end.

(** ** The five layers *)

(** The mutable fields of a [SecurityScanner]. *)
Record scanner := {
  issues : list SecurityIssue;
  layer_results : list LayerResult
}.

(** [__init__] *)
Definition init : scanner := {| issues := []; layer_results := [] |}.

(** [len([i for i in layer_issues if i.severity in ['CRITICAL', 'HIGH']]) == 0] *)
Definition layer_passed (layer_issues : list SecurityIssue) : bool :=
  (length (List.filter
     (fun i => bool_decide (issue_severity i ∈ [CRITICAL; HIGH]))
     layer_issues) =? 0)%nat.

(** The body the five [analyze_layerN_*] methods share: they differ in
    the layer's name and in the categories they scan. *)
Definition analyze_layer (name : string) (categories : list string)
    (tree : list entry) (self : scanner) : scanner :=
  let layer_issues := flat_map (_scan_patterns tree) categories in
  let passed := layer_passed layer_issues in
  let score := _calculate_layer_score layer_issues in
  {| issues := issues self ++ layer_issues;
     layer_results := layer_results self ++
       [ {| layer_name := name; passed := passed;
            layer_issues := layer_issues; layer_score := score |} ] |}.

Definition layer1_categories : list string :=
  ["command_injection"; "path_traversal"; "arbitrary_file_ops"].
Definition layer2_categories : list string :=
  ["privilege_escalation"; "env_var_manipulation"; "insecure_deserialization"].
Definition layer3_categories : list string :=
  ["xss_output"; "information_disclosure"].
Definition layer4_categories : list string :=
  ["hardcoded_credentials"; "weak_crypto"].
Definition layer5_categories : list string :=
  ["dos_patterns"; "ssrf"].

Definition analyze_layer1_input_validation :=
  analyze_layer "Layer 1: Input Validation & Sanitization" layer1_categories.
Definition analyze_layer2_execution_control :=
  analyze_layer "Layer 2: Execution Environment Control" layer2_categories.
Definition analyze_layer3_output_sanitization :=
  analyze_layer "Layer 3: Output Sanitization" layer3_categories.
Definition analyze_layer4_privilege_management :=
  analyze_layer "Layer 4: Privilege Management" layer4_categories.
Definition analyze_layer5_self_protection :=
  analyze_layer "Layer 5: Self-Protection" layer5_categories.

(** The dict [analyze] returns; [issues] and [layers] are kept as the
    records the dicts of [_issue_to_dict] and [_layer_to_dict] are read
    from. *)
Record analysis := {
  score : Z;
  critical_count : Z;
  high_count : Z;
  medium_count : Z;
  low_count : Z;
  analysis_issues : list SecurityIssue;
  layers : list LayerResult
}.

(** The state after the five layer analyses of [analyze]. *)
Definition run_layers (tree : list entry) : scanner :=
  let self := init in
  let self := analyze_layer1_input_validation tree self in
  let self := analyze_layer2_execution_control tree self in
  let self := analyze_layer3_output_sanitization tree self in
  let self := analyze_layer4_privilege_management tree self in
  let self := analyze_layer5_self_protection tree self in
  self.

Definition analyze (tree : list entry) : analysis :=
  let self := run_layers tree in
  {| score := calculate_security_score (issues self);
     critical_count := count_severity CRITICAL (issues self);
     high_count := count_severity HIGH (issues self);
     medium_count := count_severity MEDIUM (issues self);
     low_count := count_severity LOW (issues self);
     analysis_issues := issues self;
     layers := layer_results self |}.

End Scanner.

(** ** The risk aggregator ([evaluate_skill.py]) *)

Module Evaluator.

Local Open Scope float_scope.

(** What [calculate_overall_score] reads of [self.results]:
    [critical_count] is read with [.get('critical_count', 0)]. *)
Record results := {
  security_score : float;
  security_critical_count : option Z;
  quality_score : float;
  utility_score : float;
  compliance_score : float
}.

Definition _determine_recommendation (self : results)
    (overall security compliance : float) : string :=
  if security <? 50 then "❌ DO NOT INSTALL - Critical security risks"
  else if (0 <? default 0%Z (security_critical_count self))%Z then
    "❌ DO NOT INSTALL - Critical vulnerabilities found"
  else if compliance <? 40 then
    "⚠️ NOT RECOMMENDED - Fundamental compliance issues"
  else if 90 <=? overall then "✅ HIGHLY RECOMMENDED"
  else if 75 <=? overall then "✅ RECOMMENDED"
  else if 60 <=? overall then "⚠️ USE WITH CAUTION"
  else if 40 <=? overall then "⚠️ NOT RECOMMENDED"
  else "❌ DO NOT INSTALL".

Definition _determine_risk_level (security_score : float) : string :=
  if 90 <=? security_score then "Low"
  else if 75 <=? security_score then "Medium"
  else if 50 <=? security_score then "High"
  else "Critical".

(** The local [overall] of [calculate_overall_score]. *)
Definition weighted_overall (self : results) : float :=
  security_score self * 0.35 +
  quality_score self * 0.25 +
  utility_score self * 0.20 +
  compliance_score self * 0.20.

(** The dict [calculate_overall_score] returns, without its breakdown;
    [overall] is the value before the [round(overall, 1)] of the dict,
    the one the recommendation is computed from. *)
Record overall_result := {
  overall : float;
  recommendation : string;
  risk_level : string
}.

Definition calculate_overall_score (self : results) : overall_result :=
  let overall := weighted_overall self in
  {| overall := overall;
     recommendation :=
       _determine_recommendation self overall
         (security_score self) (compliance_score self);
     risk_level := _determine_risk_level (security_score self) |}.

End Evaluator.

(** ** Binary64 numbers in order *)

Module FloatOrder.

(** The position of a float in the order of [SFcompare]: its class (the
    infinities, the negative and positive finite numbers, zero), then its
    exponent and mantissa, negated for negative numbers. *)
Definition key (x : spec_float) : Z * Z * Z :=
  match x with
  | S754_nan => (0, 0, 0)
  | S754_zero _ => (0, 0, 0)
  | S754_infinity true => (-2, 0, 0)
  | S754_infinity false => (2, 0, 0)
  | S754_finite true m e => (-1, - e, - Z.pos m)
  | S754_finite false m e => (1, e, Z.pos m)
  end.

Definition sf_nan (x : spec_float) : Prop := x = S754_nan.

Definition lex_lt (a b : Z * Z * Z) : Prop :=
  let '(a1, a2, a3) := a in
  let '(b1, b2, b3) := b in
  a1 < b1 \/ (a1 = b1 /\ (a2 < b2 \/ (a2 = b2 /\ a3 < b3))).

Definition lex_le (a b : Z * Z * Z) : Prop :=
  let '(a1, a2, a3) := a in
  let '(b1, b2, b3) := b in
  a1 < b1 \/ (a1 = b1 /\ (a2 < b2 \/ (a2 = b2 /\ a3 <= b3))).

(** The same for the primitive operations. *)
Definition fkey (x : float) : Z * Z * Z := key (Prim2SF x).
Definition fnan (x : float) : Prop := sf_nan (Prim2SF x).

(** Integers as floats. *)

(** The mantissa of the positive integer [p], scaled to 53 bits. *)
Definition norm (p : positive) : positive :=
  Z.to_pos (Z.pos p * 2 ^ (52 - Z.log2 (Z.pos p))).

(** The binary64 number that holds the integer [z] exactly; meant for
    [|z| < 2 ^ 53], the range in which every integer is a binary64 float. *)
Definition Z2SF (z : Z) : spec_float :=
  match z with
  | Z0 => S754_zero false
  | Z.pos p => S754_finite false (norm p) (Z.log2 (Z.pos p) - 52)
  | Z.neg p => S754_finite true (norm p) (Z.log2 (Z.pos p) - 52)
  end.

Definition Z_to_float (z : Z) : float := SF2Prim (Z2SF z).

End FloatOrder.

(** ** The orchestrator ([evaluate_skill.py]) *)

Module Evaluation.

Import Evaluator FloatOrder.

(** What [evaluate] stores in [self.results] for the mode, from the result
    of the scanner and the scores of the three other analyses.  The
    scanner's score, an integer held in a float, becomes that float. *)
Definition gather (mode : string) (security : analysis)
    (quality utility compliance : float) : results :=
  if String.eqb mode "security" then
    {| security_score := Z_to_float (score security);
       security_critical_count := Some (critical_count security);
       quality_score := 0; utility_score := 0;
       compliance_score := compliance |}
  else if String.eqb mode "pre-publish" then
    {| security_score := Z_to_float (score security);
       security_critical_count := Some (critical_count security);
       quality_score := quality; utility_score := utility;
       compliance_score := compliance |}
  else
    {| security_score := Z_to_float (score security);
       security_critical_count := Some (critical_count security);
       quality_score := quality; utility_score := utility;
       compliance_score := compliance |}.

(** The exit code [main] derives from the recommendation. *)
Definition exit_code (recommendation : string) : Z :=
  if contains "❌ DO NOT INSTALL" recommendation then 1
  else if contains "⚠️" recommendation then 2
  else 0.

End Evaluation.

(** * Definitions the statements use *)

(** ** Scores *)

(** The deduction of one finding, as the layer table gives it. *)
Definition deduction (sev : severity) : Z :=
  match sev with CRITICAL => 40 | HIGH => 20 | MEDIUM => 10 | LOW => 5 end.

(** The sum of the per-finding deductions of a list of findings. *)
Definition total_deductions (issues : list SecurityIssue) : Z :=
  fold_right (fun i acc => deduction (issue_severity i) + acc) 0 issues.

(** The tier formula as the code computes it: no floor. *)
Definition tier_score (critical high medium low : Z) : Z :=
  if 0 <? critical then Z.min 25 (25 - 5 * critical)
  else if 0 <? high then Z.min 50 (50 - 5 * high)
  else if 0 <? medium then Z.min 75 (75 - 3 * medium)
  else if 0 <? low then Z.min 90 (90 - 2 * low)
  else 100.

(** The tier formula with the floor at 0 written out in every tier. *)
Definition floored_tier_score (critical high medium low : Z) : Z :=
  if 0 <? critical then Z.max 0 (Z.min 25 (25 - 5 * critical))
  else if 0 <? high then Z.max 0 (Z.min 50 (50 - 5 * high))
  else if 0 <? medium then Z.max 0 (Z.min 75 (75 - 3 * medium))
  else if 0 <? low then Z.max 0 (Z.min 90 (90 - 2 * low))
  else 100.

(** ** Layers *)

(** The categories the five layers scan, in the order of [analyze]. *)
Definition layer_categories : list (list string) :=
  [layer1_categories; layer2_categories; layer3_categories;
   layer4_categories; layer5_categories].

(** ** Matching *)

(** The patterns of a list all compile: [re.search] raises on none. *)
Definition no_raise (re_search : string -> string -> re_result)
    (patterns : list pattern) : Prop :=
  forall p line, In p patterns -> re_search (fst (fst p)) line <> ReError.

(** [sample_search] finds the literal text of a call to [os.system] for the
    first pattern of [command_injection], raises for the pattern of
    [dos_patterns] whose back-reference [\1] names a group the pattern does
    not have (Python's [re] refuses to compile it), and finds nothing for
    the other patterns.  On the lines of the examples below this is what
    [re.search] returns for every pattern of the registry. *)
Definition sample_search (pattern line : string) : re_result :=
  if String.eqb pattern "os\.system\s*\(" then
    match index 0 "os.system(" line with
    | Some start => Match start
    | None => NoMatch
    end
  else if String.eqb pattern "def\s+\w+\s*\([^)]*\)\s*:.*\1\s*\(" then ReError
  else NoMatch.

(** A pattern matches a line: [re.search] returns a match. *)
Definition re_search_matches (re_search : string -> string -> re_result)
    (p : pattern) (line : string) : Prop :=
  exists start, re_search (fst (fst p)) line = Match start.

(** The first pattern of [command_injection]. *)
Definition os_system_pattern : pattern :=
  ("os\.system\s*\(", CRITICAL, "os.system() with potential user input").

(** A readable script [scripts/run.py] with the given content. *)
Definition run_py (content : string) : entry :=
  {| parts := ["scripts"; "run.py"]; read_text := Some content |}.

(** Six lines, each a call to [os.system]. *)
Definition six_calls : string :=
  join (String newline EmptyString) (repeat "os.system(cmd)" 6).

(** The category sets of the five layers. *)
Definition layer_sets : list (gset string) :=
  map list_to_set layer_categories.

(** In how many layers a category lies. *)
Definition layers_of (category : string) : nat :=
  length (List.filter (fun cs => bool_decide (category ∈ cs)) layer_sets).

(** The tokens [suppressed] looks for. *)
Definition suppression_markers : list string :=
  ["# evaluator: ignore"; "# noqa"].

(** An entry whose read raises. *)
Definition broken_py : entry :=
  {| parts := ["scripts"; "broken.py"]; read_text := None |}.

(** A readable shell script of one line. *)
Definition deploy_sh : entry :=
  {| parts := ["tools"; "deploy.sh"]; read_text := Some "os.system(cmd)" |}.

(** ** Scanned entries *)

(** An entry one of the three globs of [_scan_patterns] yields. *)
Definition is_script (e : entry) : bool :=
  endswith (name e) ".py" || endswith (name e) ".sh"
  || endswith (name e) ".bash".

(** No pattern of the registry matches a line of a script of the tree that
    the scan reads. *)
Definition clean_tree (re_search : string -> string -> re_result)
    (tree : list entry) : Prop :=
  forall e content line category p start,
    In e tree -> is_script e = true -> excluded e = false ->
    read_text e = Some content ->
    In line (split newline content) ->
    In p (default [] (PATTERNS !! category)) ->
    re_search (fst (fst p)) line <> Match start.

(** A script of two lines that no pattern of the registry matches. *)
Definition clean_py : entry :=
  {| parts := ["scripts"; "clean.py"];
     read_text :=
       Some (join (String newline EmptyString)
               ["import json"; "print(len(data))"]) |}.

(** The second pattern of [dos_patterns], which Python's [re] refuses. *)
Definition recursive_call_regex : string :=
  "def\s+\w+\s*\([^)]*\)\s*:.*\1\s*\(".

(** The first pattern of [dos_patterns]. *)
Definition while_true_pattern : pattern :=
  ("while\s+True\s*:", MEDIUM, "Infinite loop without timeout").

(** A matcher for the examples on [dos_patterns]: it finds the literal
    text [while True:] for the first pattern, raises for the second and
    finds nothing for the others. *)
Definition loop_search (pattern line : string) : re_result :=
  if String.eqb pattern "while\s+True\s*:" then
    match index 0 "while True:" line with
    | Some start => Match start
    | None => NoMatch
    end
  else if String.eqb pattern recursive_call_regex then ReError
  else NoMatch.

(** Two loops, on lines 1 and 3. *)
Definition two_loops : string :=
  join (String newline EmptyString)
       ["while True:"; "    work()"; "while True:"; "    more()"].

(** A vendored script, below an excluded directory. *)
Definition vendored_py : entry :=
  {| parts := ["venv"; "lib"; "tool.py"];
     read_text := Some "os.system(cmd)" |}.

(** ** The recommendation as a decision table *)

Module Rules.

Import Evaluator.
Local Open Scope float_scope.

(** A decision table: the first rule whose guard holds gives the result. *)
Fixpoint first_match (rules : list (bool * string)) (otherwise : string)
    : string :=
  match rules with
  | [] => otherwise
  | (guard, result) :: rest =>
      if guard then result else first_match rest otherwise
  end.

(** The rules of the recommendation in their order: the three overrides,
    then the bands of the weighted overall. *)
Definition recommendation_rules (self : results)
    (overall security compliance : float) : list (bool * string) :=
  [ (security <? 50, "❌ DO NOT INSTALL - Critical security risks");
    ((0 <? default 0%Z (security_critical_count self))%Z,
     "❌ DO NOT INSTALL - Critical vulnerabilities found");
    (compliance <? 40, "⚠️ NOT RECOMMENDED - Fundamental compliance issues");
    (90 <=? overall, "✅ HIGHLY RECOMMENDED");
    (75 <=? overall, "✅ RECOMMENDED");
    (60 <=? overall, "⚠️ USE WITH CAUTION");
    (40 <=? overall, "⚠️ NOT RECOMMENDED") ].

(** The input of the example: security 40, the other scores 100, any
    count of critical findings. *)
Definition blocked (critical_count : option Z) : results :=
  {| security_score := 40; security_critical_count := critical_count;
     quality_score := 100; utility_score := 100; compliance_score := 100 |}.

(** The same weighted overall, 79, reached with scores that trigger no
    override: 50 * 0.35 + 100 * 0.25 + 82.5 * 0.2 + 100 * 0.2. *)
Definition unblocked : results :=
  {| security_score := 50; security_critical_count := Some 0%Z;
     quality_score := 100; utility_score := 82.5; compliance_score := 100 |}.

End Rules.

(** ** Whole scores *)

Module Ranges.

Import FloatOrder.
Local Open Scope float_scope.

(** The integers from [lo], [n] of them. *)
Definition Z_range (lo : Z) (n : nat) : list Z :=
  map (fun i => (lo + Z.of_nat i)%Z) (seq 0 n).

(** In security mode the weighted overall stays below 60 for whole scores
    within range: it is at most 0.35 * 100 + 0.20 * 100 = 55. *)
Definition security_mode_overall (security compliance : Z) : float :=
  Z_to_float security * 0.35 + 0 * 0.25 + 0 * 0.20
  + Z_to_float compliance * 0.20.

End Ranges.

(** * Properties *)

(** ** Substring test *)

Lemma prefix_nil (t : string) : String.prefix EmptyString t = true.
Proof. by destruct t. Qed.

Lemma prefix_cons (a b : ascii) (s t : string) :
  String.prefix (String a s) (String b t) =
  if ascii_dec a b then String.prefix s t else false.
Proof. reflexivity. Qed.

Lemma append_cons (a : ascii) (s t : string) :
  String a s +:+ t = String a (s +:+ t).
Proof. reflexivity. Qed.

Lemma prefix_app (s t : string) : String.prefix s (s +:+ t) = true.
Proof.
  induction s as [|a s IH]; [apply prefix_nil|].
  rewrite append_cons, prefix_cons.
  destruct (ascii_dec a a); [exact IH | congruence].
Qed.

Lemma prefix_inv (s t : string) :
  String.prefix s t = true -> exists post, t = s +:+ post.
Proof.
  revert t. induction s as [|a s IH]; intros t H.
  - by exists t.
  - destruct t as [|b t]; [done|]. rewrite prefix_cons in H.
    destruct (ascii_dec a b) as [->|]; [|done].
    destruct (IH _ H) as [post ->]. by exists post.
Qed.

Lemma contains_cons (needle : string) (c : ascii) (hay : string) :
  contains needle (String c hay) =
  String.prefix needle (String c hay) || contains needle hay.
Proof. reflexivity. Qed.

(** [contains] is Python's [in]: the needle occurs somewhere in the line. *)
Lemma contains_spec (needle hay : string) :
  contains needle hay = true <->
  exists pre post, hay = pre +:+ needle +:+ post.
Proof.
  split.
  - induction hay as [|c hay IH]; intros H.
    + apply orb_true_iff in H as [H|H]; [|done].
      apply prefix_inv in H as [post ->]. by exists EmptyString, post.
    + rewrite contains_cons in H. apply orb_true_iff in H as [H|H].
      * apply prefix_inv in H as [post ->]. by exists EmptyString, post.
      * destruct (IH H) as (pre & post & ->). by exists (String c pre), post.
  - intros (pre & post & ->).
    induction pre as [|c pre IH].
    + change (EmptyString +:+ needle +:+ post) with (needle +:+ post).
      destruct needle as [|a needle]; [by destruct post|].
      rewrite append_cons, contains_cons, <- append_cons, prefix_app. done.
    + rewrite append_cons, contains_cons, IH. apply orb_true_r.
Qed.

(** ** Scores *)

Lemma deduct_fold (issues : list SecurityIssue) (acc : Z) :
  fold_left deduct issues acc = acc + total_deductions issues.
Proof.
  revert acc. induction issues as [|i issues IH]; intros acc; simpl; [lia|].
  rewrite IH. unfold deduct. destruct (issue_severity i); simpl; lia.
Qed.

Lemma total_deductions_nonneg (issues : list SecurityIssue) :
  0 <= total_deductions issues.
Proof.
  induction issues as [|i issues IH]; simpl; [lia|].
  destruct (issue_severity i); simpl; lia.
Qed.

Lemma _calculate_layer_score_eq (issues : list SecurityIssue) :
  _calculate_layer_score issues = Z.max 0 (100 - total_deductions issues).
Proof.
  destruct issues as [|i issues]; [reflexivity|].
  unfold _calculate_layer_score. by rewrite deduct_fold.
Qed.

(** Every layer score lies in [0, 100]. *)
Lemma _calculate_layer_score_bounds (issues : list SecurityIssue) :
  0 <= _calculate_layer_score issues <= 100.
Proof.
  rewrite _calculate_layer_score_eq.
  pose proof (total_deductions_nonneg issues). lia.
Qed.

Lemma layer_passed_spec (issues : list SecurityIssue) :
  layer_passed issues = true <->
  Forall (fun i => issue_severity i <> CRITICAL /\ issue_severity i <> HIGH)
         issues.
Proof.
  unfold layer_passed. rewrite Nat.eqb_eq.
  induction issues as [|i issues IH]; simpl.
  - split; [constructor | done].
  - rewrite Forall_cons. case_bool_decide as Hin; simpl.
    + split; [done|]. intros [[H1 H2] _].
      apply elem_of_cons in Hin as [?|Hin]; [done|].
      apply elem_of_cons in Hin as [?|Hin]; [done|].
      by apply elem_of_nil in Hin.
    + rewrite IH. split; [|tauto]. intros H. split; [|done].
      split; intros Heq; apply Hin; rewrite Heq, !elem_of_cons; auto.
Qed.

Lemma count_severity_nonneg (sev : severity) (issues : list SecurityIssue) :
  0 <= count_severity sev issues.
Proof. unfold count_severity. lia. Qed.

Lemma count_severity_pos (sev : severity) (issues : list SecurityIssue)
    (i : SecurityIssue) :
  In i issues -> issue_severity i = sev -> 0 < count_severity sev issues.
Proof.
  intros Hin Hsev. unfold count_severity.
  assert (Hf : In i (List.filter
            (fun i => bool_decide (issue_severity i = sev)) issues)).
  { apply filter_In. split; [done|]. by apply bool_decide_eq_true. }
  destruct (List.filter _ issues); [done | simpl; lia].
Qed.

Lemma count_severity_zero (sev : severity) (issues : list SecurityIssue) :
  count_severity sev issues = 0 <->
  Forall (fun i => issue_severity i <> sev) issues.
Proof.
  unfold count_severity. induction issues as [|i issues IH]; simpl.
  - split; [constructor | done].
  - rewrite Forall_cons. case_bool_decide; simpl.
    + split; [lia | tauto].
    + rewrite IH. tauto.
Qed.

Lemma calculate_security_score_eq (issues : list SecurityIssue) :
  calculate_security_score issues =
  tier_score (count_severity CRITICAL issues) (count_severity HIGH issues)
             (count_severity MEDIUM issues) (count_severity LOW issues).
Proof.
  destruct issues as [|i issues]; [reflexivity|].
  unfold calculate_security_score, tier_score.
  repeat (destruct (_ <? _); [f_equal; lia|]). reflexivity.
Qed.

Lemma floored_tier_score_max (critical high medium low : Z) :
  floored_tier_score critical high medium low =
  Z.max 0 (tier_score critical high medium low).
Proof.
  unfold floored_tier_score, tier_score.
  repeat (destruct (_ <? _); [reflexivity|]). reflexivity.
Qed.

(** The overall score never exceeds 100. *)
Lemma calculate_security_score_le_100 (issues : list SecurityIssue) :
  calculate_security_score issues <= 100.
Proof.
  rewrite calculate_security_score_eq. unfold tier_score.
  repeat (destruct (_ <? _); [lia|]). lia.
Qed.

(** The overall score agrees with the floored formula exactly as long as no
    tier has more findings than its ceiling pays for. *)
Lemma calculate_security_score_floored_iff (issues : list SecurityIssue) :
  calculate_security_score issues =
    floored_tier_score (count_severity CRITICAL issues)
      (count_severity HIGH issues) (count_severity MEDIUM issues)
      (count_severity LOW issues)
  <-> 0 <= calculate_security_score issues.
Proof.
  rewrite floored_tier_score_max, <- calculate_security_score_eq. lia.
Qed.

(** A CRITICAL finding caps the overall score at 25. *)
Lemma critical_caps_score (issues : list SecurityIssue) (i : SecurityIssue) :
  In i issues -> issue_severity i = CRITICAL ->
  calculate_security_score issues <= 25.
Proof.
  intros Hin Hsev. rewrite calculate_security_score_eq. unfold tier_score.
  pose proof (count_severity_pos _ _ _ Hin Hsev) as Hpos.
  apply Z.ltb_lt in Hpos. rewrite Hpos. lia.
Qed.

(** ** The filters of the innermost loop *)

Lemma odd_test_false (n : nat) :
  (n mod 2 =? 1)%nat = false <-> Nat.Even n.
Proof.
  rewrite Nat.eqb_neq.
  pose proof (Nat.div_mod_eq n 2) as Hdm.
  pose proof (Nat.mod_upper_bound n 2) as Hub.
  split.
  - intros H. exists (n / 2)%nat. lia.
  - intros [m Hm]. lia.
Qed.

Lemma odd_test_true (n : nat) :
  (n mod 2 =? 1)%nat = true <-> Nat.Odd n.
Proof.
  rewrite Nat.eqb_eq.
  pose proof (Nat.div_mod_eq n 2) as Hdm.
  split.
  - intros H. exists (n / 2)%nat. lia.
  - intros [m Hm]. pose proof (Nat.mod_upper_bound n 2). lia.
Qed.

Section ScannerFacts.

Variable re_search : string -> string -> re_result.


(** The quote test lets a match through exactly when both counts are
    even. *)
Lemma in_string_literal_false (line : string) (start : nat) :
  in_string_literal line start = false <->
  Nat.Even (count squote (take start line)) /\
  Nat.Even (count dquote (take start line)).
Proof.
  unfold in_string_literal.
  by rewrite orb_false_iff, !odd_test_false.
Qed.

Lemma in_string_literal_true (line : string) (start : nat) :
  in_string_literal line start = true <->
  Nat.Odd (count squote (take start line)) \/
  Nat.Odd (count dquote (take start line)).
Proof.
  unfold in_string_literal.
  by rewrite orb_true_iff, !odd_test_true.
Qed.

(** A line carries a marker when one of the two tokens occurs in it. *)
Lemma suppressed_spec (line : string) :
  suppressed line = true <->
  exists pre post,
    line = pre +:+ "# evaluator: ignore" +:+ post \/
    line = pre +:+ "# noqa" +:+ post.
Proof.
  unfold suppressed. rewrite orb_true_iff, !contains_spec. split.
  - intros [(pre & post & H)|(pre & post & H)]; exists pre, post; auto.
  - intros (pre & post & [H|H]); [left | right]; by exists pre, post.
Qed.

(** An iteration appends nothing or one finding. *)
Lemma visit_cases (category : string) (e : entry) (line_num : nat)
    (line : string) (p : pattern) :
  visit re_search category e line_num line p = ([], Raised) \/
  visit re_search category e line_num line p = ([], Normal) \/
  visit re_search category e line_num line p =
    ([make_issue category e line_num line p], Normal).
Proof.
  unfold visit. destruct (re_search _ _); auto.
  destruct (suppressed line); auto.
  destruct (in_string_literal line start); auto.
Qed.

(** A pattern whose iteration appends nothing and ends normally can be
    dropped from the pattern list: the line yields the same findings. *)
Lemma scan_line_skip (category : string) (e : entry) (line_num : nat)
    (line : string) (p : pattern) (before after : list pattern) :
  visit re_search category e line_num line p = ([], Normal) ->
  scan_line re_search category e line_num line (before ++ p :: after) =
  scan_line re_search category e line_num line (before ++ after).
Proof.
  intros Hp. induction before as [|q before IH]; simpl.
  - rewrite Hp. by destruct (scan_line _ _ _ _ _ after).
  - destruct (visit re_search category e line_num line q) as [found [|]]; [|done].
    by rewrite IH.
Qed.

(** On a suppressed line no pattern appends a finding. *)
Lemma visit_suppressed (category : string) (e : entry) (line_num : nat)
    (line : string) (p : pattern) :
  suppressed line = true ->
  fst (visit re_search category e line_num line p) = [].
Proof.
  intros Hs. unfold visit. destruct (re_search _ _); [done..|].
  by rewrite Hs.
Qed.

Lemma scan_line_suppressed (category : string) (e : entry) (line_num : nat)
    (line : string) (patterns : list pattern) :
  suppressed line = true ->
  fst (scan_line re_search category e line_num line patterns) = [].
Proof.
  intros Hs. induction patterns as [|p patterns IH]; simpl; [done|].
  pose proof (visit_suppressed category e line_num line p Hs) as Hv.
  destruct (visit re_search category e line_num line p) as [found [|]];
    simpl in Hv; subst found; [|done].
  destruct (scan_line _ _ _ _ _ patterns) as [more fl]. exact IH.
Qed.

End ScannerFacts.

(** ** What a scan emits *)

Section ScanFacts.

Variable re_search : string -> string -> re_result.

Lemma visit_normal (category : string) (e : entry) (line_num : nat)
    (line : string) (p : pattern) :
  re_search (fst (fst p)) line <> ReError ->
  snd (visit re_search category e line_num line p) = Normal.
Proof.
  intros H. unfold visit. destruct (re_search _ _); [done|done|].
  by repeat destruct (_ : bool).
Qed.

Lemma no_raise_tail (p : pattern) (patterns : list pattern) :
  no_raise re_search (p :: patterns) -> no_raise re_search patterns.
Proof. intros H q line Hq. apply H. by right. Qed.

(** With patterns that compile, the loop over them ends normally. *)
Lemma scan_line_normal (category : string) (e : entry) (line_num : nat)
    (line : string) (patterns : list pattern) :
  no_raise re_search patterns ->
  snd (scan_line re_search category e line_num line patterns) = Normal.
Proof.
  induction patterns as [|q patterns IH]; intros Hnr; [done|]. simpl.
  assert (Hq : snd (visit re_search category e line_num line q) = Normal).
  { apply visit_normal, Hnr. by left. }
  destruct (visit re_search category e line_num line q) as [found fl].
  simpl in Hq. subst fl.
  specialize (IH (no_raise_tail _ _ Hnr)).
  by destruct (scan_line re_search category e line_num line patterns).
Qed.

Lemma scan_line_complete (category : string) (e : entry) (line_num : nat)
    (line : string) (patterns : list pattern) (p : pattern)
    (i : SecurityIssue) :
  no_raise re_search patterns -> In p patterns ->
  In i (fst (visit re_search category e line_num line p)) ->
  In i (fst (scan_line re_search category e line_num line patterns)).
Proof.
  induction patterns as [|q patterns IH]; intros Hnr Hp Hi; [done|]. simpl.
  assert (Hq : snd (visit re_search category e line_num line q) = Normal).
  { apply visit_normal, Hnr. by left. }
  destruct (visit re_search category e line_num line q)
    as [found fl] eqn:Hv. simpl in Hq. subst fl.
  specialize (IH (no_raise_tail _ _ Hnr)).
  destruct (scan_line re_search category e line_num line patterns)
    as [more fl']. simpl in *. apply in_or_app.
  destruct Hp as [->|Hp]; [left | right; by apply IH].
  by rewrite Hv in Hi.
Qed.

Lemma scan_lines_complete (category : string) (e : entry)
    (patterns : list pattern) (lines : list string) (line_num k : nat)
    (line : string) (i : SecurityIssue) :
  no_raise re_search patterns ->
  nth_error lines k = Some line ->
  In i (fst (scan_line re_search category e (line_num + k) line patterns)) ->
  In i (fst (scan_lines re_search category e patterns line_num lines)).
Proof.
  intros Hnr. revert line_num k.
  induction lines as [|first lines IH]; intros line_num k Hk Hi.
  - by destruct k.
  - pose proof (scan_line_normal category e line_num first patterns Hnr)
      as Hfl.
    destruct k as [|k]; simpl in Hk.
    + inversion Hk; subst first. rewrite Nat.add_0_r in Hi. simpl.
      destruct (scan_line re_search category e line_num line patterns)
        as [found fl]. simpl in Hfl, Hi. subst fl.
      destruct (scan_lines re_search category e patterns (S line_num) lines)
        as [more fl']. simpl. apply in_or_app. by left.
    + specialize (IH (S line_num) k Hk). simpl.
      destruct (scan_line re_search category e line_num first patterns)
        as [found fl]. simpl in Hfl. subst fl.
      destruct (scan_lines re_search category e patterns (S line_num) lines)
        as [more fl']. simpl in *. apply in_or_app. right. apply IH.
      by replace (S (line_num + k))%nat with (line_num + S k)%nat by lia.
Qed.

(** A match that passes both filters on line [k + 1] of a readable,
    scanned file is reported, if the patterns of the category compile. *)
Lemma _scan_patterns_complete (tree : list entry) (category : string)
    (e : entry) (content line : string) (k : nat) (p : pattern)
    (start : nat) :
  In e (script_files tree) -> excluded e = false ->
  read_text e = Some content ->
  nth_error (split newline content) k = Some line ->
  In p (default [] (PATTERNS !! category)) ->
  no_raise re_search (default [] (PATTERNS !! category)) ->
  re_search (fst (fst p)) line = Match start ->
  suppressed line = false ->
  in_string_literal line start = false ->
  In (make_issue category e (S k) line p)
     (_scan_patterns re_search tree category).
Proof.
  intros He Hex Hread Hline Hp Hnr Hm Hsup Hlit.
  unfold _scan_patterns. apply in_flat_map. exists e. split; [done|].
  rewrite Hex. unfold scan_file. rewrite Hread.
  eapply (scan_lines_complete _ _ _ _ 1 k); [done..|].
  eapply scan_line_complete; [done..|].
  unfold visit. rewrite Hm, Hsup, Hlit. by left.
Qed.

(** [self.issues] after the five layers: the findings of each category,
    layer by layer. *)
Lemma issues_run_layers (tree : list entry) :
  issues (run_layers re_search tree) =
  flat_map (_scan_patterns re_search tree) (concat layer_categories).
Proof.
  unfold run_layers, analyze_layer1_input_validation,
    analyze_layer2_execution_control, analyze_layer3_output_sanitization,
    analyze_layer4_privilege_management, analyze_layer5_self_protection,
    analyze_layer, layer_categories. cbn [issues init concat].
  rewrite !flat_map_app, app_nil_r. cbn [app]. by rewrite <- !app_assoc.
Qed.

(** The five layer results of [analyze]. *)
Lemma layers_analyze (tree : list entry) :
  layers (analyze re_search tree) =
  map (fun '(name, categories) =>
         let found := flat_map (_scan_patterns re_search tree) categories in
         {| layer_name := name; passed := layer_passed found;
            layer_issues := found;
            layer_score := _calculate_layer_score found |})
      [("Layer 1: Input Validation & Sanitization", layer1_categories);
       ("Layer 2: Execution Environment Control", layer2_categories);
       ("Layer 3: Output Sanitization", layer3_categories);
       ("Layer 4: Privilege Management", layer4_categories);
       ("Layer 5: Self-Protection", layer5_categories)].
Proof. reflexivity. Qed.

(** An entry whose read raises contributes nothing to a scan. *)
Lemma script_files_app (t1 t2 : list entry) (ext : string) :
  rglob (t1 ++ t2) ext = rglob t1 ext ++ rglob t2 ext.
Proof. unfold rglob. apply List.filter_app. Qed.

Lemma flat_map_rglob_drop (f : entry -> list SecurityIssue)
    (t1 t2 : list entry) (e : entry) (ext : string) :
  f e = [] ->
  flat_map f (rglob (t1 ++ e :: t2) ext) = flat_map f (rglob (t1 ++ t2) ext).
Proof.
  intros Hf. rewrite !script_files_app, !flat_map_app. f_equal.
  unfold rglob. simpl. destruct (endswith (name e) ext); [|done].
  simpl. by rewrite Hf.
Qed.

Lemma _scan_patterns_unreadable (t1 t2 : list entry) (e : entry)
    (category : string) :
  read_text e = None ->
  _scan_patterns re_search (t1 ++ e :: t2) category =
  _scan_patterns re_search (t1 ++ t2) category.
Proof.
  intros Hread. unfold _scan_patterns, script_files.
  rewrite !flat_map_app.
  rewrite !(flat_map_rglob_drop _ t1 t2 e); [done|..];
    destruct (excluded e); try done; unfold scan_file; by rewrite Hread.
Qed.

End ScanFacts.

(** ** A matcher for the examples *)

Lemma sample_search_no_raise :
  no_raise sample_search (default [] (PATTERNS !! "command_injection")).
Proof.
  intros p line Hin. vm_compute in Hin. unfold sample_search.
  repeat (destruct Hin as [<-|Hin]; [simpl; try discriminate|]).
  - destruct (index 0 _ line); discriminate.
  - destruct Hin.
Qed.

(** The categories that hold a CRITICAL pattern; [dos_patterns], whose
    second pattern does not compile, is not one of them. *)
Lemma critical_categories :
  List.filter
    (fun category =>
       existsb (fun p : pattern => bool_decide (snd (fst p) = CRITICAL))
               (default [] (PATTERNS !! category)))
    (concat layer_categories) =
  ["command_injection"; "privilege_escalation"; "env_var_manipulation"].
Proof. vm_compute. reflexivity. Qed.

(** ** The overall security score *)

(** C1 (the code departs from it). The score is the first applicable tier
    formula, but the floor at 0 is missing: six CRITICAL findings give
    25 - 30 = -5, where the floored formula gives 0. *)
Theorem security_score_six_criticals :
  let found :=
    repeat (make_issue "command_injection" (run_py six_calls) 1
              "os.system(cmd)" os_system_pattern) 6 in
  count_severity CRITICAL found = 6 /\
  calculate_security_score found = -5 /\
  floored_tier_score (count_severity CRITICAL found)
    (count_severity HIGH found) (count_severity MEDIUM found)
    (count_severity LOW found) = 0.
Proof. vm_compute. done. Qed.

(** C2 (the code departs from it). Scanning a tree whose one script has six
    lines calling [os.system] gives six CRITICAL findings, a layer score of
    0 for layer 1 and 100 for the others, and the overall score -5, below
    the range [0, 100]. *)
Theorem analyze_six_calls_score :
  let result := analyze sample_search [run_py six_calls] in
  critical_count result = 6 /\
  length (analysis_issues result) = 6%nat /\
  map layer_score (layers result) = [0; 100; 100; 100; 100] /\
  score result = -5 /\
  ~ (0 <= score result <= 100).
Proof. vm_compute. repeat split; try done. intros [H _]. by apply H. Qed.

(** C4. On a scanned, readable file, a CRITICAL pattern that matches a line
    without a suppression marker, with an even count of single quotes and
    an even count of double quotes before the match start, caps the overall
    security score at 25 (the patterns of the category are assumed to
    compile). *)
Theorem critical_match_caps_score
    (re_search : string -> string -> re_result) (tree : list entry)
    (e : entry) (content line category regex description : string)
    (k start : nat) :
  In e (script_files tree) -> excluded e = false ->
  read_text e = Some content ->
  nth_error (split newline content) k = Some line ->
  In category (concat layer_categories) ->
  In (regex, CRITICAL, description) (default [] (PATTERNS !! category)) ->
  no_raise re_search (default [] (PATTERNS !! category)) ->
  re_search regex line = Match start ->
  suppressed line = false ->
  Nat.Even (count squote (take start line)) ->
  Nat.Even (count dquote (take start line)) ->
  score (analyze re_search tree) <= 25.
Proof.
  intros He Hex Hread Hline Hcat Hp Hnr Hm Hsup Hsq Hdq.
  assert (Hlit : in_string_literal line start = false)
    by (apply in_string_literal_false; split; assumption).
  pose proof (_scan_patterns_complete re_search tree category e content line
                k (regex, CRITICAL, description) start
                He Hex Hread Hline Hp Hnr Hm Hsup Hlit) as Hin.
  unfold analyze. cbn [score].
  apply (critical_caps_score _
           (make_issue category e (S k) line (regex, CRITICAL, description)));
    [|reflexivity].
  rewrite issues_run_layers. apply in_flat_map. exists category. split; assumption.
Qed.

Lemma critical_match_caps_score_witness :
  score (analyze sample_search [run_py six_calls]) <= 25.
Proof.
  apply (critical_match_caps_score sample_search [run_py six_calls]
           (run_py six_calls) six_calls "os.system(cmd)" "command_injection"
           "os\.system\s*\(" "os.system() with potential user input" 2 0).
  - vm_compute. by left.
  - vm_compute. reflexivity.
  - reflexivity.
  - vm_compute. reflexivity.
  - vm_compute. by left.
  - vm_compute. by left.
  - exact sample_search_no_raise.
  - vm_compute. reflexivity.
  - vm_compute. reflexivity.
  - exists 0%nat. reflexivity.
  - exists 0%nat. reflexivity.
Defined.

(** ** The layers *)

(** C5. Each of the five layer analyses appends one layer result whose
    findings are those of the layer's categories; for every list of
    findings the [passed] flag is true exactly when none of them is CRITICAL
    or HIGH, and the score is 100 minus the sum of the deductions of the
    findings (CRITICAL 40, HIGH 20, MEDIUM 10, LOW 5), floored at 0; so it
    is for the five layers [analyze] returns, which are the five named
    layers with the findings of their categories. *)
Theorem layer_passed_and_score
    (re_search : string -> string -> re_result) (tree : list entry) :
  (forall found : list SecurityIssue,
     (layer_passed found = true <->
      Forall (fun i => issue_severity i <> CRITICAL /\
                       issue_severity i <> HIGH) found) /\
     _calculate_layer_score found = Z.max 0 (100 - total_deductions found)) /\
  (forall (name : string) (categories : list string) (self : scanner),
     analyze_layer re_search name categories tree self =
     {| issues :=
          issues self ++ flat_map (_scan_patterns re_search tree) categories;
        layer_results :=
          layer_results self ++
          [ {| layer_name := name;
               passed :=
                 layer_passed
                   (flat_map (_scan_patterns re_search tree) categories);
               layer_issues :=
                 flat_map (_scan_patterns re_search tree) categories;
               layer_score :=
                 _calculate_layer_score
                   (flat_map (_scan_patterns re_search tree) categories) |} ]
     |}) /\
  map (fun layer => (layer_name layer, layer_issues layer))
      (layers (analyze re_search tree)) =
  [ ("Layer 1: Input Validation & Sanitization",
     flat_map (_scan_patterns re_search tree)
       ["command_injection"; "path_traversal"; "arbitrary_file_ops"]);
    ("Layer 2: Execution Environment Control",
     flat_map (_scan_patterns re_search tree)
       ["privilege_escalation"; "env_var_manipulation";
        "insecure_deserialization"]);
    ("Layer 3: Output Sanitization",
     flat_map (_scan_patterns re_search tree)
       ["xss_output"; "information_disclosure"]);
    ("Layer 4: Privilege Management",
     flat_map (_scan_patterns re_search tree)
       ["hardcoded_credentials"; "weak_crypto"]);
    ("Layer 5: Self-Protection",
     flat_map (_scan_patterns re_search tree) ["dos_patterns"; "ssrf"]) ] /\
  Forall (fun layer =>
            (passed layer = true <->
             Forall (fun i => issue_severity i <> CRITICAL /\
                              issue_severity i <> HIGH) (layer_issues layer)) /\
            layer_score layer =
              Z.max 0 (100 - total_deductions (layer_issues layer)))
         (layers (analyze re_search tree)).
Proof.
  split; [|split; [|split]].
  - intros found. split;
      [apply layer_passed_spec | apply _calculate_layer_score_eq].
  - intros name categories self. reflexivity.
  - reflexivity.
  - rewrite layers_analyze.
    repeat (apply Forall_cons; split;
            [cbn [passed layer_issues layer_score]; split;
             [apply layer_passed_spec | apply _calculate_layer_score_eq]|]).
    apply Forall_nil. done.
Qed.


(** C8. The category sets of the five layers are pairwise disjoint, their
    union is the set of categories of [PATTERNS], and every category of
    [PATTERNS] lies in exactly one layer. *)
Theorem layers_partition_registry :
  match layer_sets with
  | [l1; l2; l3; l4; l5] =>
      l1 = {[ "command_injection"; "path_traversal"; "arbitrary_file_ops" ]} /\
      l2 = {[ "privilege_escalation"; "env_var_manipulation";
              "insecure_deserialization" ]} /\
      l3 = {[ "xss_output"; "information_disclosure" ]} /\
      l4 = {[ "hardcoded_credentials"; "weak_crypto" ]} /\
      l5 = {[ "dos_patterns"; "ssrf" ]} /\
      l1 ## l2 /\ l1 ## l3 /\ l1 ## l4 /\ l1 ## l5 /\ l2 ## l3 /\
      l2 ## l4 /\ l2 ## l5 /\ l3 ## l4 /\ l3 ## l5 /\ l4 ## l5 /\
      l1 ∪ l2 ∪ l3 ∪ l4 ∪ l5 = dom PATTERNS
  | _ => False
  end /\
  Forall (fun category => layers_of category = 1%nat)
         (elements (dom PATTERNS)) /\
  NoDup (concat layer_categories) /\
  size (dom PATTERNS) = 12%nat.
Proof.
  split; [|split; [|split]].
  - cbn [layer_sets map layer_categories].
    repeat split; try (by vm_compute);
      apply (bool_decide_unpack _); by vm_compute.
  - apply (bool_decide_unpack _). by vm_compute.
  - apply (bool_decide_unpack _). by vm_compute.
  - by vm_compute.
Qed.

(** ** The two filters *)

(** C6. A match with an odd count of single quotes, or an odd count of
    double quotes, before its start is not reported: its iteration appends
    nothing, and the line yields what it yields without that pattern. *)
Theorem quoted_match_not_reported
    (re_search : string -> string -> re_result) (category : string)
    (e : entry) (line_num : nat) (line : string) (p : pattern) (start : nat)
    (before after : list pattern) :
  re_search (fst (fst p)) line = Match start ->
  Nat.Odd (count squote (take start line)) \/
  Nat.Odd (count dquote (take start line)) ->
  visit re_search category e line_num line p = ([], Normal) /\
  scan_line re_search category e line_num line (before ++ p :: after) =
  scan_line re_search category e line_num line (before ++ after).
Proof.
  intros Hm Hodd. apply in_string_literal_true in Hodd.
  assert (Hv : visit re_search category e line_num line p = ([], Normal)).
  { unfold visit. rewrite Hm, Hodd. by destruct (suppressed line). }
  split; [exact Hv | by apply scan_line_skip].
Qed.

Lemma quoted_match_not_reported_witness :
  visit sample_search "command_injection" (run_py "print('os.system(cmd)')")
    1 "print('os.system(cmd)')" os_system_pattern = ([], Normal) /\
  scan_line sample_search "command_injection"
    (run_py "print('os.system(cmd)')") 1 "print('os.system(cmd)')"
    ([] ++ os_system_pattern :: []) =
  scan_line sample_search "command_injection"
    (run_py "print('os.system(cmd)')") 1 "print('os.system(cmd)')" ([] ++ []).
Proof.
  apply (quoted_match_not_reported sample_search "command_injection"
           (run_py "print('os.system(cmd)')") 1 "print('os.system(cmd)')"
           os_system_pattern 7 [] []).
  - vm_compute. reflexivity.
  - left. exists 0%nat. vm_compute. reflexivity.
Defined.

Lemma suppressed_markers (line : string) :
  suppressed line =
  existsb (fun marker => contains marker line) suppression_markers.
Proof. unfold suppressed. simpl. by rewrite orb_false_r. Qed.

(** C7. A match on a line that carries a suppression marker is not
    reported: its iteration appends nothing, and the line yields what it
    yields without that pattern. *)
Theorem marked_match_not_reported
    (re_search : string -> string -> re_result) (category : string)
    (e : entry) (line_num : nat) (line marker pre post : string)
    (p : pattern) (start : nat) (before after : list pattern) :
  In marker suppression_markers ->
  line = pre +:+ marker +:+ post ->
  re_search (fst (fst p)) line = Match start ->
  visit re_search category e line_num line p = ([], Normal) /\
  scan_line re_search category e line_num line (before ++ p :: after) =
  scan_line re_search category e line_num line (before ++ after).
Proof.
  intros Hmarker Hline Hm.
  assert (Hs : suppressed line = true).
  { rewrite suppressed_markers. apply existsb_exists. exists marker.
    split; [exact Hmarker|]. apply contains_spec. by exists pre, post. }
  assert (Hv : visit re_search category e line_num line p = ([], Normal)).
  { unfold visit. by rewrite Hm, Hs. }
  split; [exact Hv | by apply scan_line_skip].
Qed.

Lemma marked_match_not_reported_witness :
  visit sample_search "command_injection"
    (run_py "os.system(cmd)  # evaluator: ignore") 1
    "os.system(cmd)  # evaluator: ignore" os_system_pattern = ([], Normal) /\
  scan_line sample_search "command_injection"
    (run_py "os.system(cmd)  # evaluator: ignore") 1
    "os.system(cmd)  # evaluator: ignore" ([] ++ os_system_pattern :: []) =
  scan_line sample_search "command_injection"
    (run_py "os.system(cmd)  # evaluator: ignore") 1
    "os.system(cmd)  # evaluator: ignore" ([] ++ []).
Proof.
  apply (marked_match_not_reported sample_search "command_injection"
           (run_py "os.system(cmd)  # evaluator: ignore") 1
           "os.system(cmd)  # evaluator: ignore" "# evaluator: ignore"
           "os.system(cmd)  " "" os_system_pattern 0 [] []).
  - simpl. left. reflexivity.
  - reflexivity.
  - vm_compute. reflexivity.
Defined.

(** C10. There are two markers, tested as substrings: a line in which
    [# evaluator: ignore] or [# noqa] occurs anywhere, whatever comes before
    and after it, yields no finding for any list of patterns; the file it
    is in reports nothing for that line. *)
Theorem either_marker_silences_line
    (re_search : string -> string -> re_result) (category : string)
    (e : entry) (line_num : nat) (line pre post : string)
    (patterns : list pattern) :
  line = pre +:+ "# evaluator: ignore" +:+ post \/
  line = pre +:+ "# noqa" +:+ post ->
  suppressed line = true /\
  fst (scan_line re_search category e line_num line patterns) = [] /\
  forall p, fst (visit re_search category e line_num line p) = [].
Proof.
  intros Hline.
  assert (Hs : suppressed line = true).
  { apply suppressed_spec. by exists pre, post. }
  split; [exact Hs|]. split.
  - by apply scan_line_suppressed.
  - intros p. by apply visit_suppressed.
Qed.

Lemma either_marker_silences_line_witness :
  let line := "os.system(cmd)  # see # noqa: S605, reviewed" in
  contains "# evaluator: ignore" line = false /\
  re_search_matches sample_search os_system_pattern line /\
  suppressed line = true /\
  fst (scan_line sample_search "command_injection" (run_py line) 1 line
         (default [] (PATTERNS !! "command_injection"))) = [] /\
  forall p,
    fst (visit sample_search "command_injection" (run_py line) 1 line p) = [].
Proof.
  split; [vm_compute; reflexivity|].
  split; [exists 0%nat; vm_compute; reflexivity|].
  apply (either_marker_silences_line sample_search "command_injection"
           (run_py "os.system(cmd)  # see # noqa: S605, reviewed") 1
           "os.system(cmd)  # see # noqa: S605, reviewed"
           "os.system(cmd)  # see " ": S605, reviewed"
           (default [] (PATTERNS !! "command_injection"))).
  right. reflexivity.
Defined.

(** ** Unreadable files *)

Lemma analyze_layer_unreadable (re_search : string -> string -> re_result)
    (layer : string) (categories : list string) (t1 t2 : list entry)
    (e : entry) (self : scanner) :
  read_text e = None ->
  analyze_layer re_search layer categories (t1 ++ e :: t2) self =
  analyze_layer re_search layer categories (t1 ++ t2) self.
Proof.
  intros Hread. unfold analyze_layer.
  rewrite (flat_map_ext _ (_scan_patterns re_search (t1 ++ t2))); [done|].
  intros category. by apply _scan_patterns_unreadable.
Qed.

(** C9. An entry whose read raises is skipped and the scan goes on with the
    other files: every category reports what it reports on the tree without
    that entry, and so does the whole analysis, which always returns its
    result. *)
Theorem unreadable_file_skipped
    (re_search : string -> string -> re_result) (t1 t2 : list entry)
    (e : entry) :
  read_text e = None ->
  (forall category,
     _scan_patterns re_search (t1 ++ e :: t2) category =
     _scan_patterns re_search (t1 ++ t2) category) /\
  analyze re_search (t1 ++ e :: t2) = analyze re_search (t1 ++ t2).
Proof.
  intros Hread. split.
  - intros category. by apply _scan_patterns_unreadable.
  - unfold analyze, run_layers, analyze_layer1_input_validation,
      analyze_layer2_execution_control, analyze_layer3_output_sanitization,
      analyze_layer4_privilege_management, analyze_layer5_self_protection.
    by rewrite !(analyze_layer_unreadable re_search _ _ t1 t2 e).
Qed.

Lemma unreadable_file_skipped_witness :
  length (analysis_issues
            (analyze sample_search
               ([run_py "os.system(cmd)"] ++ broken_py :: [deploy_sh])))
    = 2%nat /\
  ((forall category,
      _scan_patterns sample_search
        ([run_py "os.system(cmd)"] ++ broken_py :: [deploy_sh]) category =
      _scan_patterns sample_search
        ([run_py "os.system(cmd)"] ++ [deploy_sh]) category) /\
   analyze sample_search
     ([run_py "os.system(cmd)"] ++ broken_py :: [deploy_sh]) =
   analyze sample_search ([run_py "os.system(cmd)"] ++ [deploy_sh])).
Proof.
  split; [vm_compute; reflexivity|].
  apply (unreadable_file_skipped sample_search [run_py "os.system(cmd)"]
           [deploy_sh] broken_py).
  reflexivity.
Defined.

(** ** The recommendation *)

Module EvaluatorFacts.

Import Evaluator Rules.
Local Open Scope float_scope.

Lemma _determine_recommendation_first_match (self : results)
    (overall security compliance : float) :
  _determine_recommendation self overall security compliance =
  first_match (recommendation_rules self overall security compliance)
              "❌ DO NOT INSTALL".
Proof. reflexivity. Qed.

(** A security score below 50 blocks, whatever the other inputs. *)
Lemma security_override (self : results)
    (overall security compliance : float) :
  (security <? 50) = true ->
  _determine_recommendation self overall security compliance =
  "❌ DO NOT INSTALL - Critical security risks".
Proof. intros H. unfold _determine_recommendation. by rewrite H. Qed.

(** C3. The recommendation is the first rule that applies of the ordered
    table, overrides first.  With security 40 and the other scores 100
    the weighted overall is 79 and the recommendation is the block of
    rule 1, for every count of critical findings; the same overall with
    no override applying would be in the recommended band. *)
Theorem overrides_precede_banding :
  (forall self overall security compliance,
     _determine_recommendation self overall security compliance =
     first_match (recommendation_rules self overall security compliance)
                 "❌ DO NOT INSTALL") /\
  (forall critical_count,
     overall (calculate_overall_score (blocked critical_count)) = 79 /\
     recommendation (calculate_overall_score (blocked critical_count)) =
     "❌ DO NOT INSTALL - Critical security risks") /\
  overall (calculate_overall_score unblocked) = 79 /\
  recommendation (calculate_overall_score unblocked) = "✅ RECOMMENDED".
Proof.
  split; [|split; [|split]].
  - intros. apply _determine_recommendation_first_match.
  - intros critical_count. split; reflexivity.
  - reflexivity.
  - reflexivity.
Qed.

End EvaluatorFacts.

(** * Further properties of the scanner *)

Section ScanSoundness.

Variable re_search : string -> string -> re_result.

Lemma visit_sound (category : string) (e : entry) (line_num : nat)
    (line : string) (p : pattern) (i : SecurityIssue) :
  In i (fst (visit re_search category e line_num line p)) ->
  exists start,
    re_search (fst (fst p)) line = Match start /\
    suppressed line = false /\
    in_string_literal line start = false /\
    i = make_issue category e line_num line p.
Proof.
  unfold visit. destruct (re_search (fst (fst p)) line) as [| |start];
    [intros []..|].
  destruct (suppressed line); [intros []|].
  destruct (in_string_literal line start) eqn:Hlit; [intros []|].
  intros [<-|[]]. exists start. repeat split; assumption.
Qed.

Lemma scan_line_sound (category : string) (e : entry) (line_num : nat)
    (line : string) (patterns : list pattern) (i : SecurityIssue) :
  In i (fst (scan_line re_search category e line_num line patterns)) ->
  exists p, In p patterns /\
            In i (fst (visit re_search category e line_num line p)).
Proof.
  induction patterns as [|q patterns IH]; simpl; [intros []|].
  destruct (visit re_search category e line_num line q)
    as [found fl] eqn:Hv.
  destruct fl.
  - destruct (scan_line re_search category e line_num line patterns)
      as [more fl']. simpl in *. intros Hin.
    apply in_app_or in Hin as [Hin|Hin].
    + exists q. split; [by left|]. by rewrite Hv.
    + destruct (IH Hin) as (p & Hp & Hi). exists p. split; [by right|done].
  - simpl. intros Hin. exists q. split; [by left|]. by rewrite Hv.
Qed.

Lemma scan_lines_sound (category : string) (e : entry)
    (patterns : list pattern) (lines : list string) (line_num : nat)
    (i : SecurityIssue) :
  In i (fst (scan_lines re_search category e patterns line_num lines)) ->
  exists k line,
    nth_error lines k = Some line /\
    In i (fst (scan_line re_search category e (line_num + k) line patterns)).
Proof.
  revert line_num. induction lines as [|first lines IH]; intros line_num;
    simpl; [intros []|].
  destruct (scan_line re_search category e line_num first patterns)
    as [found fl] eqn:Hs.
  assert (Hfirst : In i found -> exists k line,
            nth_error (first :: lines) k = Some line /\
            In i (fst (scan_line re_search category e (line_num + k) line
                         patterns))).
  { intros Hin. exists 0%nat, first. split; [done|].
    by rewrite Nat.add_0_r, Hs. }
  destruct fl; [|exact Hfirst].
  destruct (scan_lines re_search category e patterns (S line_num) lines)
    as [more fl'] eqn:Hr. simpl. intros Hin.
  apply in_app_or in Hin as [Hin|Hin]; [by apply Hfirst|].
  specialize (IH (S line_num)). rewrite Hr in IH.
  destruct (IH Hin) as (k & line & Hk & Hi).
  exists (S k), line. split; [done|].
  by replace (line_num + S k)%nat with (S line_num + k)%nat by lia.
Qed.

Lemma in_script_files (tree : list entry) (e : entry) :
  In e (script_files tree) <-> In e tree /\ is_script e = true.
Proof.
  unfold script_files, rglob, is_script.
  rewrite !in_app_iff, !filter_In, !orb_true_iff. tauto.
Qed.

End ScanSoundness.

(** Where a reported finding comes from. *)
Lemma finding_origin
    (re_search : string -> string -> re_result) (tree : list entry)
    (category : string) (i : SecurityIssue) :
  In i (_scan_patterns re_search tree category) ->
  exists e content k line p start,
    In e tree /\ is_script e = true /\ excluded e = false /\
    read_text e = Some content /\
    nth_error (split newline content) k = Some line /\
    In p (default [] (PATTERNS !! category)) /\
    re_search (fst (fst p)) line = Match start /\
    suppressed line = false /\
    Nat.Even (count squote (take start line)) /\
    Nat.Even (count dquote (take start line)) /\
    i = make_issue category e (S k) line p.
Proof.
  unfold _scan_patterns. intros Hin.
  apply in_flat_map in Hin as (e & He & Hin).
  apply in_script_files in He as [He Hscript].
  destruct (excluded e) eqn:Hex; [destruct Hin|].
  unfold scan_file in Hin.
  destruct (read_text e) as [content|] eqn:Hread; [|destruct Hin].
  apply scan_lines_sound in Hin as (k & line & Hk & Hin).
  apply scan_line_sound in Hin as (p & Hp & Hin).
  apply visit_sound in Hin as (start & Hm & Hsup & Hlit & ->).
  apply in_string_literal_false in Hlit as [Hsq Hdq].
  exists e, content, k, line, p, start.
  split; [exact He|]. split; [exact Hscript|]. split; [exact Hex|].
  split; [exact Hread|]. split; [exact Hk|]. split; [exact Hp|].
  split; [exact Hm|]. split; [exact Hsup|]. split; [exact Hsq|].
  split; [exact Hdq | reflexivity].
Qed.

(** X1. Every finding [_scan_patterns] reports is justified: it comes from
    an entry of the tree with a script extension, not excluded and
    readable, from a line of it (numbered from 1) and a pattern of the
    category that matches the line, on which no marker occurs and before
    whose match start both quote counts are even. *)
Theorem _scan_patterns_sound
    (re_search : string -> string -> re_result) (tree : list entry)
    (category : string) (i : SecurityIssue) :
  In i (_scan_patterns re_search tree category) ->
  exists e content k line p start,
    In e tree /\ is_script e = true /\ excluded e = false /\
    read_text e = Some content /\
    nth_error (split newline content) k = Some line /\
    In p (default [] (PATTERNS !! category)) /\
    re_search (fst (fst p)) line = Match start /\
    suppressed line = false /\
    Nat.Even (count squote (take start line)) /\
    Nat.Even (count dquote (take start line)) /\
    i = make_issue category e (S k) line p.
Proof. apply finding_origin. Qed.

Lemma _scan_patterns_sound_witness :
  exists e content k line p start,
    In e [run_py six_calls] /\ is_script e = true /\ excluded e = false /\
    read_text e = Some content /\
    nth_error (split newline content) k = Some line /\
    In p (default [] (PATTERNS !! "command_injection")) /\
    sample_search (fst (fst p)) line = Match start /\
    suppressed line = false /\
    Nat.Even (count squote (take start line)) /\
    Nat.Even (count dquote (take start line)) /\
    make_issue "command_injection" (run_py six_calls) 3 "os.system(cmd)"
      os_system_pattern
    = make_issue "command_injection" e (S k) line p.
Proof.
  apply (_scan_patterns_sound sample_search [run_py six_calls]
           "command_injection"
           (make_issue "command_injection" (run_py six_calls) 3
              "os.system(cmd)" os_system_pattern)).
  vm_compute. right. right. left. reflexivity.
Defined.

(** The two tables have the same keys. *)
Lemma recommendations_dom : dom recommendations = dom PATTERNS.
Proof. apply (bool_decide_unpack _). vm_compute. reflexivity. Qed.

(** X2. A category that is not a key of [PATTERNS] has no patterns: its
    scan reports nothing, whatever the tree holds, and its recommendation
    is the fallback text. *)
Theorem unknown_category_reports_nothing
    (re_search : string -> string -> re_result) (tree : list entry)
    (category : string) :
  PATTERNS !! category = None ->
  _scan_patterns re_search tree category = [] /\
  _get_recommendation category = "Review and apply security best practices.".
Proof.
  intros Hnone. split.
  - unfold _scan_patterns. rewrite Hnone. simpl.
    induction (script_files tree) as [|e es IH]; [reflexivity|].
    simpl. rewrite IH, app_nil_r.
    destruct (excluded e); [reflexivity|].
    unfold scan_file. destruct (read_text e) as [content|]; [|reflexivity].
    generalize 1%nat.
    induction (split newline content) as [|line lines IHl]; intros n;
      [reflexivity|].
    simpl. specialize (IHl (S n)).
    by destruct (scan_lines re_search category e [] (S n) lines).
  - unfold _get_recommendation.
    destruct (recommendations !! category) as [text|] eqn:Hrec; [|reflexivity].
    exfalso. apply not_elem_of_dom in Hnone. apply Hnone.
    rewrite <- recommendations_dom. apply elem_of_dom. exists text. exact Hrec.
Qed.

Lemma unknown_category_reports_nothing_witness :
  _scan_patterns sample_search [run_py six_calls] "sql_injection" = [] /\
  _get_recommendation "sql_injection"
  = "Review and apply security best practices.".
Proof.
  apply (unknown_category_reports_nothing sample_search [run_py six_calls]
           "sql_injection").
  vm_compute. reflexivity.
Defined.

Section Unscanned.

Variable re_search : string -> string -> re_result.

Lemma flat_map_rglob_skip (f : entry -> list SecurityIssue)
    (t1 t2 : list entry) (e : entry) (ext : string) :
  endswith (name e) ext = false \/ f e = [] ->
  flat_map f (rglob (t1 ++ e :: t2) ext) = flat_map f (rglob (t1 ++ t2) ext).
Proof.
  intros H. rewrite !script_files_app, !flat_map_app. f_equal.
  unfold rglob. simpl. destruct (endswith (name e) ext); [|reflexivity].
  destruct H as [H|H]; [discriminate|]. simpl. by rewrite H.
Qed.

Lemma _scan_patterns_unscanned (t1 t2 : list entry) (e : entry)
    (category : string) :
  is_script e = false \/ excluded e = true ->
  _scan_patterns re_search (t1 ++ e :: t2) category =
  _scan_patterns re_search (t1 ++ t2) category.
Proof.
  intros H. unfold _scan_patterns, script_files. rewrite !flat_map_app.
  rewrite !(flat_map_rglob_skip _ t1 t2 e); [reflexivity|..];
    (destruct H as [H|H];
     [left; unfold is_script in H; apply orb_false_iff in H as [H H3];
      apply orb_false_iff in H as [H1 H2]; assumption
     |right; by rewrite H]).
Qed.

(** The analysis only depends on what the scans of the categories report. *)
Lemma analyze_ext (t1 t2 : list entry) :
  (forall category,
     _scan_patterns re_search t1 category =
     _scan_patterns re_search t2 category) ->
  analyze re_search t1 = analyze re_search t2.
Proof.
  intros H.
  assert (Hl : forall layer categories self,
             analyze_layer re_search layer categories t1 self =
             analyze_layer re_search layer categories t2 self).
  { intros layer categories self. unfold analyze_layer.
    by rewrite (flat_map_ext _ (_scan_patterns re_search t2)). }
  unfold analyze, run_layers, analyze_layer1_input_validation,
    analyze_layer2_execution_control, analyze_layer3_output_sanitization,
    analyze_layer4_privilege_management, analyze_layer5_self_protection.
  by rewrite !Hl.
Qed.

End Unscanned.

(** What makes an entry excluded: a component of its relative path (its
    own name included) is one of the nine directory names, or its name is
    one of the two scanner files. *)
Lemma excluded_spec (e : entry) :
  excluded e = true <->
  (exists part, In part (parts e) /\
     In part ["node_modules"; "venv"; ".venv"; "__pycache__"; ".git";
              "dist"; "build"; ".eggs"; ".tox"]) \/
  In (name e) ["security_scanner.py"; "quality_checker.py"].
Proof.
  unfold excluded. rewrite orb_true_iff, !bool_decide_eq_true.
  assert (Hdirs : forall x : string, x ∈ excluded_dirs <->
            In x ["node_modules"; "venv"; ".venv"; "__pycache__"; ".git";
                  "dist"; "build"; ".eggs"; ".tox"]).
  { intros x. unfold excluded_dirs. rewrite !elem_of_union, !elem_of_singleton.
    simpl. intuition congruence. }
  assert (Hfiles : name e ∈ excluded_files <->
            In (name e) ["security_scanner.py"; "quality_checker.py"]).
  { unfold excluded_files. rewrite !elem_of_union, !elem_of_singleton.
    simpl. intuition congruence. }
  rewrite Hfiles. apply or_iff_compat_r. split.
  - intros Hne. apply set_choose_L in Hne as [x Hx].
    apply elem_of_intersection in Hx as [Hx1 Hx2].
    exists x. split; [|by apply Hdirs].
    apply list_elem_of_In. by apply elem_of_list_to_set in Hx1.
  - intros (part & Hin & Hdir) Hempty.
    assert (Hx : part ∈ (list_to_set (parts e) : gset string) ∩ excluded_dirs).
    { apply elem_of_intersection. split; [|by apply Hdirs].
      apply elem_of_list_to_set. by apply list_elem_of_In. }
    rewrite Hempty in Hx. by apply not_elem_of_empty in Hx.
Qed.

(** X3. An entry that has none of the three script extensions, or that is
    excluded (it lies under a dependency, build or version-control
    directory, or is one of the scanner's own two files), is never read:
    the scan of every category and the whole analysis are those of the tree
    without it, whatever the entry contains. *)
Theorem unscanned_entry_ignored
    (re_search : string -> string -> re_result) (t1 t2 : list entry)
    (e : entry) :
  is_script e = false \/ excluded e = true ->
  (forall category,
     _scan_patterns re_search (t1 ++ e :: t2) category =
     _scan_patterns re_search (t1 ++ t2) category) /\
  analyze re_search (t1 ++ e :: t2) = analyze re_search (t1 ++ t2).
Proof.
  intros H.
  assert (Hs : forall category,
             _scan_patterns re_search (t1 ++ e :: t2) category =
             _scan_patterns re_search (t1 ++ t2) category).
  { intros category. by apply _scan_patterns_unscanned. }
  split; [exact Hs | by apply analyze_ext].
Qed.

Lemma unscanned_entry_ignored_witness :
  (forall category,
     _scan_patterns sample_search ([run_py six_calls] ++ vendored_py :: [])
       category =
     _scan_patterns sample_search ([run_py six_calls] ++ []) category) /\
  analyze sample_search ([run_py six_calls] ++ vendored_py :: []) =
  analyze sample_search ([run_py six_calls] ++ []).
Proof.
  apply (unscanned_entry_ignored sample_search [run_py six_calls] []
           vendored_py).
  right. vm_compute. reflexivity.
Defined.

(** ** What [analyze] returns *)

Lemma count_severity_cons (sev : severity) (i : SecurityIssue)
    (issues : list SecurityIssue) :
  count_severity sev (i :: issues) =
  (if bool_decide (issue_severity i = sev) then 1 else 0)
  + count_severity sev issues.
Proof.
  unfold count_severity. simpl. case_bool_decide; simpl length; lia.
Qed.

Lemma count_severity_app (sev : severity) (l1 l2 : list SecurityIssue) :
  count_severity sev (l1 ++ l2) =
  count_severity sev l1 + count_severity sev l2.
Proof.
  unfold count_severity. rewrite List.filter_app, length_app. lia.
Qed.

Lemma count_severity_total (issues : list SecurityIssue) :
  count_severity CRITICAL issues + count_severity HIGH issues +
  count_severity MEDIUM issues + count_severity LOW issues =
  Z.of_nat (length issues).
Proof.
  induction issues as [|i issues IH]; [reflexivity|].
  rewrite !count_severity_cons. simpl length.
  destruct (issue_severity i); repeat case_bool_decide; try done; lia.
Qed.

(** The findings of an analysis are those of its layers, in order. *)
Lemma analysis_issues_concat
    (re_search : string -> string -> re_result) (tree : list entry) :
  analysis_issues (analyze re_search tree) =
  concat (map layer_issues (layers (analyze re_search tree))).
Proof.
  unfold analyze. cbn [analysis_issues layers].
  unfold run_layers, analyze_layer1_input_validation,
    analyze_layer2_execution_control, analyze_layer3_output_sanitization,
    analyze_layer4_privilege_management, analyze_layer5_self_protection,
    analyze_layer. cbn [issues layer_results init app map layer_issues concat].
  by rewrite app_nil_r, <- !app_assoc.
Qed.

(** X4. The result of [analyze] is consistent: its four counts add up to
    the number of findings, there are five layer results in the order of
    the layers, and the findings are those of the layers, layer after
    layer, so that the layers' issue counts add up to the same number. *)
Theorem analyze_consistent
    (re_search : string -> string -> re_result) (tree : list entry) :
  let result := analyze re_search tree in
  critical_count result + high_count result + medium_count result
    + low_count result = Z.of_nat (length (analysis_issues result)) /\
  map layer_name (layers result) =
    ["Layer 1: Input Validation & Sanitization";
     "Layer 2: Execution Environment Control";
     "Layer 3: Output Sanitization";
     "Layer 4: Privilege Management";
     "Layer 5: Self-Protection"] /\
  analysis_issues result = concat (map layer_issues (layers result)) /\
  list_sum (map (fun layer => length (layer_issues layer)) (layers result))
    = length (analysis_issues result).
Proof.
  pose proof (analysis_issues_concat re_search tree) as Hconcat.
  cbv zeta. split; [|split; [|split]].
  - apply count_severity_total.
  - reflexivity.
  - exact Hconcat.
  - rewrite Hconcat.
    generalize (layers (analyze re_search tree)). intros ls.
    induction ls as [|l ls IH]; [reflexivity|].
    simpl. rewrite length_app. by rewrite IH.
Qed.

(** X5. When no pattern of the registry matches a line of a script the
    scan reads (the tree is empty, holds no script, or its scripts are
    clean; what excluded, unreadable and other files hold does not matter),
    [analyze] reports no finding, the score 100 and zero counts, and every
    layer passes with the score 100: no findings is not an error. *)
Theorem clean_tree_scores_100
    (re_search : string -> string -> re_result) (tree : list entry) :
  clean_tree re_search tree ->
  let result := analyze re_search tree in
  analysis_issues result = [] /\
  score result = 100 /\
  (critical_count result, high_count result, medium_count result,
   low_count result) = (0, 0, 0, 0) /\
  map (fun layer => (passed layer, layer_score layer, layer_issues layer))
      (layers result) = repeat (true, 100, []) 5.
Proof.
  intros Hclean.
  assert (Hnone : forall category,
            _scan_patterns re_search tree category =
            _scan_patterns re_search [] category).
  { intros category.
    destruct (_scan_patterns re_search tree category) as [|i rest] eqn:Hs;
      [reflexivity|].
    assert (Hin : In i (_scan_patterns re_search tree category))
      by (rewrite Hs; left; reflexivity).
    apply finding_origin in Hin
      as (e & content & k & line & p & start & He & Hscript & Hex & Hread
          & Hk & Hp & Hm & _).
    apply nth_error_In in Hk.
    destruct (Hclean e content line category p start
                He Hscript Hex Hread Hk Hp Hm). }
  cbv zeta. rewrite (analyze_ext re_search tree [] Hnone).
  repeat split.
Qed.

Lemma clean_tree_scores_100_witness :
  let result := analyze sample_search [clean_py; vendored_py; broken_py] in
  analysis_issues result = [] /\
  score result = 100 /\
  (critical_count result, high_count result, medium_count result,
   low_count result) = (0, 0, 0, 0) /\
  map (fun layer => (passed layer, layer_score layer, layer_issues layer))
      (layers result) = repeat (true, 100, []) 5.
Proof.
  apply (clean_tree_scores_100 sample_search
           [clean_py; vendored_py; broken_py]).
  intros e content line category p start He Hscript Hex Hread Hline Hp.
  destruct He as [<-|[<-|[<-|[]]]].
  - injection Hread as <-. vm_compute in Hline.
    destruct Hline as [<-|[<-|[]]]; unfold sample_search;
      destruct (String.eqb (fst (fst p)) "os\.system\s*\(");
      try (vm_compute; discriminate);
      destruct (String.eqb (fst (fst p)) _); discriminate.
  - vm_compute in Hex. discriminate Hex.
  - discriminate Hread.
Defined.

(** ** More on the two scores *)

Lemma count_severity_nil_iff (issues : list SecurityIssue) :
  issues = [] <->
  count_severity CRITICAL issues = 0 /\ count_severity HIGH issues = 0 /\
  count_severity MEDIUM issues = 0 /\ count_severity LOW issues = 0.
Proof.
  pose proof (count_severity_total issues) as Htotal.
  pose proof (count_severity_nonneg CRITICAL issues).
  pose proof (count_severity_nonneg HIGH issues).
  pose proof (count_severity_nonneg MEDIUM issues).
  pose proof (count_severity_nonneg LOW issues).
  split.
  - intros ->. repeat split.
  - intros (Hc & Hh & Hm & Hl). destruct issues as [|i issues]; [done|].
    simpl length in Htotal. lia.
Qed.

(** X6. The ceilings 25, 50, 75 and 90 of the tiers are never reached: the
    score is 25 - 5c, 50 - 5h, 75 - 3m or 90 - 2l in the first tier that
    has a finding, hence at most 20, 45, 72 or 88, and 100 only without
    findings.  So a score of 90 or more means no finding at all, 75 or more
    means LOW findings only, and 50 or more means no CRITICAL and no HIGH
    finding. *)
Theorem score_below_tier_ceiling (issues : list SecurityIssue) :
  let critical := count_severity CRITICAL issues in
  let high := count_severity HIGH issues in
  let medium := count_severity MEDIUM issues in
  let low := count_severity LOW issues in
  calculate_security_score issues =
    (if 0 <? critical then 25 - 5 * critical
     else if 0 <? high then 50 - 5 * high
     else if 0 <? medium then 75 - 3 * medium
     else if 0 <? low then 90 - 2 * low
     else 100) /\
  (90 <= calculate_security_score issues <-> issues = []) /\
  (75 <= calculate_security_score issues <->
   critical = 0 /\ high = 0 /\ medium = 0 /\ low <= 7) /\
  (50 <= calculate_security_score issues <->
   critical = 0 /\ high = 0 /\ medium <= 8 /\ (medium = 0 -> low <= 20)).
Proof.
  cbv zeta. rewrite calculate_security_score_eq. unfold tier_score.
  rewrite count_severity_nil_iff.
  pose proof (count_severity_nonneg CRITICAL issues).
  pose proof (count_severity_nonneg HIGH issues).
  pose proof (count_severity_nonneg MEDIUM issues).
  pose proof (count_severity_nonneg LOW issues).
  destruct (0 <? count_severity CRITICAL issues) eqn:Hc;
    [apply Z.ltb_lt in Hc; repeat split; lia | apply Z.ltb_ge in Hc].
  destruct (0 <? count_severity HIGH issues) eqn:Hh;
    [apply Z.ltb_lt in Hh; repeat split; lia | apply Z.ltb_ge in Hh].
  destruct (0 <? count_severity MEDIUM issues) eqn:Hm;
    [apply Z.ltb_lt in Hm; repeat split; lia | apply Z.ltb_ge in Hm].
  destruct (0 <? count_severity LOW issues) eqn:Hl;
    [apply Z.ltb_lt in Hl; repeat split; lia | apply Z.ltb_ge in Hl].
  repeat split; lia.
Qed.

Lemma layer_passed_app (l1 l2 : list SecurityIssue) :
  layer_passed (l1 ++ l2) = layer_passed l1 && layer_passed l2.
Proof.
  unfold layer_passed. rewrite List.filter_app, length_app.
  by destruct (List.filter _ l1).
Qed.

Lemma total_deductions_cons (i : SecurityIssue) (l : list SecurityIssue) :
  total_deductions (i :: l) =
  deduction (issue_severity i) + total_deductions l.
Proof. reflexivity. Qed.

Lemma total_deductions_app (l1 l2 : list SecurityIssue) :
  total_deductions (l1 ++ l2) = total_deductions l1 + total_deductions l2.
Proof.
  induction l1 as [|i l1 IH]; simpl; [reflexivity|]. rewrite IH. lia.
Qed.

Lemma passed_layers_counts (ls : list LayerResult) :
  Forall (fun layer => passed layer = layer_passed (layer_issues layer)) ls ->
  forallb passed ls = true <->
  count_severity CRITICAL (concat (map layer_issues ls)) = 0 /\
  count_severity HIGH (concat (map layer_issues ls)) = 0.
Proof.
  intros Hpassed. induction Hpassed as [|layer ls Hl _ IH]; simpl.
  - split; [intros _; split; reflexivity | reflexivity].
  - rewrite andb_true_iff, IH, Hl, !count_severity_app.
    rewrite layer_passed_spec, Forall_and, <- !count_severity_zero.
    pose proof (count_severity_nonneg CRITICAL (layer_issues layer)).
    pose proof (count_severity_nonneg HIGH (layer_issues layer)).
    pose proof (count_severity_nonneg CRITICAL
                  (concat (map layer_issues ls))).
    pose proof (count_severity_nonneg HIGH (concat (map layer_issues ls))).
    lia.
Qed.

(** X7. All five layers of an analysis pass exactly when it counts no
    CRITICAL and no HIGH finding. *)
Theorem all_layers_pass_iff
    (re_search : string -> string -> re_result) (tree : list entry) :
  forallb passed (layers (analyze re_search tree)) = true <->
  critical_count (analyze re_search tree) = 0 /\
  high_count (analyze re_search tree) = 0.
Proof.
  change (critical_count (analyze re_search tree))
    with (count_severity CRITICAL (analysis_issues (analyze re_search tree))).
  change (high_count (analyze re_search tree))
    with (count_severity HIGH (analysis_issues (analyze re_search tree))).
  rewrite analysis_issues_concat. apply passed_layers_counts.
  rewrite layers_analyze. repeat (apply Forall_cons; split; [reflexivity|]).
  apply Forall_nil. done.
Qed.

Lemma count_severity_perm (sev : severity) (l1 l2 : list SecurityIssue) :
  Permutation l1 l2 -> count_severity sev l1 = count_severity sev l2.
Proof.
  intros Hperm.
  induction Hperm as [|x l l' _ IH|x y l|l l' l'' _ IH1 _ IH2];
    rewrite ?count_severity_cons; [reflexivity | lia | lia | congruence].
Qed.

Lemma total_deductions_perm (l1 l2 : list SecurityIssue) :
  Permutation l1 l2 -> total_deductions l1 = total_deductions l2.
Proof.
  intros Hperm.
  induction Hperm as [|x l l' _ IH|x y l|l l' l'' _ IH1 _ IH2];
    rewrite ?total_deductions_cons; [reflexivity | lia | lia | congruence].
Qed.

(** X8. Both scores and the pass flag depend on the findings as a multiset
    only: reordering them changes nothing. *)
Theorem scores_order_independent (l1 l2 : list SecurityIssue) :
  Permutation l1 l2 ->
  calculate_security_score l1 = calculate_security_score l2 /\
  _calculate_layer_score l1 = _calculate_layer_score l2 /\
  layer_passed l1 = layer_passed l2.
Proof.
  intros Hperm.
  pose proof (fun sev => count_severity_perm sev l1 l2 Hperm) as Hcount.
  pose proof (total_deductions_perm l1 l2 Hperm) as Hded.
  split; [|split].
  - by rewrite !calculate_security_score_eq, !Hcount.
  - by rewrite !_calculate_layer_score_eq, Hded.
  - apply eq_true_iff_eq. rewrite !layer_passed_spec. by rewrite Hperm.
Qed.

(** X9. More findings never help a layer: the score of a layer with
    further findings is at most its score without them, it drops by the
    deductions of the further findings until it reaches 0, and the layer
    passes exactly when both parts pass on their own. *)
Theorem layer_score_antitone (found more : list SecurityIssue) :
  _calculate_layer_score (found ++ more) <= _calculate_layer_score found /\
  _calculate_layer_score (found ++ more) =
    Z.max 0 (100 - total_deductions found - total_deductions more) /\
  layer_passed (found ++ more) = layer_passed found && layer_passed more.
Proof.
  rewrite !_calculate_layer_score_eq, total_deductions_app.
  pose proof (total_deductions_nonneg more).
  split; [lia|]. split; [f_equal; lia | apply layer_passed_app].
Qed.

Lemma scores_order_independent_witness :
  let a := make_issue "command_injection" (run_py six_calls) 1
             "os.system(cmd)" os_system_pattern in
  let b := make_issue "dos_patterns" (run_py two_loops) 1
             "while True:" while_true_pattern in
  calculate_security_score [a; b] = calculate_security_score [b; a] /\
  _calculate_layer_score [a; b] = _calculate_layer_score [b; a] /\
  layer_passed [a; b] = layer_passed [b; a].
Proof.
  cbv zeta. apply scores_order_independent. apply perm_swap.
Defined.

(** ** A pattern that does not compile *)

Lemma dos_patterns_entries :
  default [] (PATTERNS !! "dos_patterns") =
  [ while_true_pattern;
    (recursive_call_regex, HIGH, "Potential recursive call");
    ("for\s+\w+\s+in\s+range\s*\(\s*[0-9]{7,}", MEDIUM,
     "Very large iteration") ].
Proof. vm_compute. reflexivity. Qed.

Lemma split_not_nil (sep : ascii) (s : string) : split sep s <> [].
Proof.
  destruct s as [|a s]; simpl; [done|].
  destruct (Ascii.eqb a sep); [done|]. by destruct (split sep s).
Qed.

(** X10. The second pattern of [dos_patterns] refers to a group [\1] it
    does not have, so [re.search] raises on it; the exception leaves the
    [try] block of the file.  Hence the scan of [dos_patterns] only ever
    tries the first pattern on the first line of each file: a finding of
    that category is on line 1 and is the MEDIUM "Infinite loop without
    timeout", and there is at most one per scanned file. *)
Theorem dos_scan_stops_at_bad_pattern
    (re_search : string -> string -> re_result) (tree : list entry) :
  (forall line, re_search recursive_call_regex line = ReError) ->
  Forall (fun i => issue_line_number i = 1%nat /\
                   issue_severity i = MEDIUM /\
                   issue_description i = "Infinite loop without timeout")
         (_scan_patterns re_search tree "dos_patterns") /\
  (length (_scan_patterns re_search tree "dos_patterns")
   <= length (script_files tree))%nat.
Proof.
  intros Hraise. unfold _scan_patterns. rewrite dos_patterns_entries.
  assert (Hfile : forall e,
            scan_file re_search "dos_patterns"
              [ while_true_pattern;
                (recursive_call_regex, HIGH, "Potential recursive call");
                ("for\s+\w+\s+in\s+range\s*\(\s*[0-9]{7,}", MEDIUM,
                 "Very large iteration") ] e = [] \/
            exists line,
              scan_file re_search "dos_patterns"
                [ while_true_pattern;
                  (recursive_call_regex, HIGH, "Potential recursive call");
                  ("for\s+\w+\s+in\s+range\s*\(\s*[0-9]{7,}", MEDIUM,
                   "Very large iteration") ] e =
              [make_issue "dos_patterns" e 1 line while_true_pattern]).
  { intros e. unfold scan_file.
    destruct (read_text e) as [content|]; [|by left].
    pose proof (split_not_nil newline content) as Hne.
    destruct (split newline content) as [|line lines]; [done|].
    cbn [scan_lines scan_line].
    assert (Hsecond : visit re_search "dos_patterns" e 1 line
              (recursive_call_regex, HIGH, "Potential recursive call")
              = ([], Raised)).
    { unfold visit. cbn [fst]. by rewrite Hraise. }
    rewrite Hsecond.
    destruct (visit_cases re_search "dos_patterns" e 1 line
                while_true_pattern) as [Hv|[Hv|Hv]]; rewrite Hv;
      [by left | by left | right; by exists line]. }
  induction (script_files tree) as [|e es [IH1 IH2]];
    [split; [constructor | reflexivity]|].
  cbn [flat_map length]. rewrite length_app.
  destruct (excluded e).
  - split; [exact IH1 | simpl; lia].
  - destruct (Hfile e) as [->|[line ->]].
    + split; [exact IH1 | simpl; lia].
    + split; [|simpl; lia]. apply Forall_cons. split; [|exact IH1].
      repeat split.
Qed.

Lemma dos_scan_stops_at_bad_pattern_witness :
  _scan_patterns loop_search [run_py two_loops] "dos_patterns" =
    [make_issue "dos_patterns" (run_py two_loops) 1 "while True:"
       while_true_pattern] /\
  Forall (fun i => issue_line_number i = 1%nat /\
                   issue_severity i = MEDIUM /\
                   issue_description i = "Infinite loop without timeout")
         (_scan_patterns loop_search [run_py two_loops] "dos_patterns") /\
  (length (_scan_patterns loop_search [run_py two_loops] "dos_patterns")
   <= length (script_files [run_py two_loops]))%nat.
Proof.
  split; [vm_compute; reflexivity|].
  apply (dos_scan_stops_at_bad_pattern loop_search [run_py two_loops]).
  intros line. reflexivity.
Defined.

(** ** The findings of an analysis *)

Lemma length_take (n : nat) (s : string) :
  (String.length (take n s) <= n)%nat.
Proof.
  revert s. induction n as [|n IH]; intros s; [simpl; lia|].
  destruct s as [|a s]; simpl; [lia|]. specialize (IH s). lia.
Qed.

Lemma recommendations_cover_registry (category : string) :
  In category (concat layer_categories) ->
  recommendations !! category = Some (_get_recommendation category).
Proof.
  intros Hin. vm_compute in Hin.
  repeat (destruct Hin as [<-|Hin]; [by vm_compute|]). destruct Hin.
Qed.

(** X11. Every finding [analyze] returns is well formed: it belongs to one
    of the twelve registry categories, whose title-cased name and whose own
    recommendation (never the fallback text) it carries; its severity and
    description are those of a pattern of that category; its line number is
    at least 1 and its snippet has at most 100 characters. *)
Theorem analyze_findings_well_formed
    (re_search : string -> string -> re_result) (tree : list entry) :
  Forall (fun i =>
            exists category regex,
              In category (concat layer_categories) /\
              In (regex, issue_severity i, issue_description i)
                 (default [] (PATTERNS !! category)) /\
              issue_category i = title (replace "_" " " category) /\
              recommendations !! category = Some (issue_recommendation i) /\
              (1 <= issue_line_number i)%nat /\
              (String.length (issue_code_snippet i) <= 100)%nat)
         (analysis_issues (analyze re_search tree)).
Proof.
  apply Forall_forall. intros i Hin. apply list_elem_of_In in Hin.
  change (analysis_issues (analyze re_search tree))
    with (issues (run_layers re_search tree)) in Hin.
  rewrite issues_run_layers in Hin.
  apply in_flat_map in Hin as (category & Hcat & Hin).
  apply finding_origin in Hin
    as (e & content & k & line & p & start & _ & _ & _ & _ & _ & Hp & _ & _
        & _ & _ & ->).
  destruct p as [[regex sev] description].
  exists category, regex. unfold make_issue.
  cbn [issue_severity issue_category issue_description issue_line_number
       issue_code_snippet issue_recommendation].
  split; [exact Hcat|]. split; [exact Hp|]. split; [reflexivity|].
  split; [by apply recommendations_cover_registry|].
  split; [lia | apply length_take].
Qed.

(** * Further properties of the evaluator *)

(** ** The order of binary64 numbers *)

Module FloatFacts.

Import FloatOrder.

Lemma lex_le_iff (a b : Z * Z * Z) : lex_le a b <-> lex_lt a b \/ a = b.
Proof.
  destruct a as [[a1 a2] a3], b as [[b1 b2] b3]. unfold lex_le, lex_lt.
  split.
  - intros [?|[-> [?|[-> Hle]]]]; [lia|lia|].
    destruct (Z.eq_dec a3 b3) as [->|?]; [by right | left; lia].
  - intros [?|[= -> -> ->]]; lia.
Qed.

Lemma SFcompare_key (x y : spec_float) :
  ~ sf_nan x -> ~ sf_nan y ->
  exists c, SFcompare x y = Some c /\
    match c with
    | Lt => lex_lt (key x) (key y)
    | Eq => key x = key y
    | Gt => lex_lt (key y) (key x)
    end.
Proof.
  unfold sf_nan. intros Hx Hy.
  destruct x as [sx|sx| |sx mx ex], y as [sy|sy| |sy my ey]; try done;
    try destruct sx; try destruct sy; simpl; try (eexists; split; [reflexivity|simpl; lia || reflexivity]).
  - change (Pos.compare_cont Eq mx my) with (Pos.compare mx my).
    destruct (Z.compare_spec ex ey), (Pos.compare_spec mx my); subst;
      eexists; (split; [reflexivity|]); simpl; try reflexivity; lia.
  - change (Pos.compare_cont Eq mx my) with (Pos.compare mx my).
    destruct (Z.compare_spec ex ey), (Pos.compare_spec mx my); subst;
      eexists; (split; [reflexivity|]); simpl; try reflexivity; lia.
Qed.

Lemma lex_trichotomy (a b : Z * Z * Z) :
  (lex_lt a b /\ a <> b /\ ~ lex_lt b a) \/
  (~ lex_lt a b /\ a = b /\ ~ lex_lt b a) \/
  (~ lex_lt a b /\ a <> b /\ lex_lt b a).
Proof.
  destruct a as [[a1 a2] a3], b as [[b1 b2] b3]. unfold lex_lt.
  destruct (Z.lt_trichotomy a1 b1) as [?|[?|?]],
           (Z.lt_trichotomy a2 b2) as [?|[?|?]],
           (Z.lt_trichotomy a3 b3) as [?|[?|?]];
    try (left; split; [lia|split; [congruence || (intros [=]; lia) | lia]]);
    try (right; right; split; [lia|split; [congruence || (intros [=]; lia) | lia]]).
  right. left. subst. split; [lia|split; [reflexivity|lia]].
Qed.

Lemma SFcompare_nan (x y : spec_float) :
  sf_nan x \/ sf_nan y -> SFcompare x y = None.
Proof. unfold sf_nan. intros [->| ->]; [reflexivity|by destruct x]. Qed.

Lemma sf_nan_dec (x : spec_float) : sf_nan x \/ ~ sf_nan x.
Proof. unfold sf_nan. destruct x; (by left) || (by right). Qed.

Lemma SFltb_key (x y : spec_float) :
  SFltb x y = true <->
  ~ sf_nan x /\ ~ sf_nan y /\ lex_lt (key x) (key y).
Proof.
  unfold SFltb.
  destruct (sf_nan_dec x) as [Hx|Hx], (sf_nan_dec y) as [Hy|Hy];
    try (rewrite SFcompare_nan by tauto; split; [discriminate|tauto]).
  destruct (SFcompare_key x y Hx Hy) as (c & -> & Hc).
  pose proof (lex_trichotomy (key x) (key y)).
  destruct c; split; try discriminate; try tauto.
Qed.

Lemma SFleb_key (x y : spec_float) :
  SFleb x y = true <->
  ~ sf_nan x /\ ~ sf_nan y /\ lex_le (key x) (key y).
Proof.
  unfold SFleb. rewrite lex_le_iff.
  destruct (sf_nan_dec x) as [Hx|Hx], (sf_nan_dec y) as [Hy|Hy];
    try (rewrite SFcompare_nan by tauto; split; [discriminate|tauto]).
  destruct (SFcompare_key x y Hx Hy) as (c & -> & Hc).
  pose proof (lex_trichotomy (key x) (key y)).
  destruct c; split; try discriminate; try tauto.
Qed.

Lemma SFeqb_refl_key (x : spec_float) :
  SFeqb x x = true <-> ~ sf_nan x.
Proof.
  unfold SFeqb.
  destruct (sf_nan_dec x) as [Hx|Hx];
    [rewrite SFcompare_nan by tauto; split; [discriminate|tauto]|].
  destruct (SFcompare_key x x Hx Hx) as (c & -> & Hc).
  pose proof (lex_trichotomy (key x) (key x)).
  destruct c; split; try discriminate; tauto.
Qed.

Lemma ltb_key (x y : float) :
  (x <? y)%float = true <-> ~ fnan x /\ ~ fnan y /\ lex_lt (fkey x) (fkey y).
Proof. rewrite ltb_spec. apply SFltb_key. Qed.

Lemma leb_key (x y : float) :
  (x <=? y)%float = true <-> ~ fnan x /\ ~ fnan y /\ lex_le (fkey x) (fkey y).
Proof. rewrite leb_spec. apply SFleb_key. Qed.

Lemma ltb_false_key (x y : float) :
  (x <? y)%float = false <-> fnan x \/ fnan y \/ lex_le (fkey y) (fkey x).
Proof.
  rewrite <- not_true_iff_false, ltb_key, lex_le_iff. unfold fnan.
  pose proof (lex_trichotomy (fkey x) (fkey y)).
  destruct (sf_nan_dec (Prim2SF x)), (sf_nan_dec (Prim2SF y));
    intuition congruence.
Qed.

Lemma leb_false_key (x y : float) :
  (x <=? y)%float = false <-> fnan x \/ fnan y \/ lex_lt (fkey y) (fkey x).
Proof.
  rewrite <- not_true_iff_false, leb_key, lex_le_iff. unfold fnan.
  pose proof (lex_trichotomy (fkey x) (fkey y)).
  destruct (sf_nan_dec (Prim2SF x)), (sf_nan_dec (Prim2SF y));
    intuition congruence.
Qed.

Lemma eqb_refl_key (x : float) : (x =? x)%float = true <-> ~ fnan x.
Proof. rewrite FloatAxioms.eqb_spec. apply SFeqb_refl_key. Qed.

Lemma digits2_pos_log2 (q : positive) :
  Z.pos (digits2_pos q) = Z.log2 (Z.pos q) + 1.
Proof.
  assert (Hsize : digits2_pos q = Pos.size q)
    by (induction q as [q IH|q IH|]; simpl; congruence).
  rewrite Hsize. change (Z.pos (Pos.size q)) with (Z.log2 (Z.pos q~0)).
  change (Z.pos q~0) with (2 * Z.pos q). rewrite Z.log2_double; lia.
Qed.

Lemma norm_spec (p : positive) :
  Z.pos p < 2 ^ 53 ->
  0 <= 52 - Z.log2 (Z.pos p) /\
  Z.pos (norm p) = Z.pos p * 2 ^ (52 - Z.log2 (Z.pos p)) /\
  Z.log2 (Z.pos (norm p)) = 52.
Proof.
  intros Hp.
  assert (Hlog : Z.log2 (Z.pos p) < 53) by (apply Z.log2_lt_pow2; lia).
  assert (Hk : 0 <= 52 - Z.log2 (Z.pos p)) by lia.
  assert (Hpos : 0 < Z.pos p * 2 ^ (52 - Z.log2 (Z.pos p))).
  { apply Z.mul_pos_pos; [lia | by apply Z.pow_pos_nonneg]. }
  assert (Hnorm : Z.pos (norm p) = Z.pos p * 2 ^ (52 - Z.log2 (Z.pos p))).
  { unfold norm. by rewrite Z2Pos.id. }
  split; [exact Hk|]. split; [exact Hnorm|].
  rewrite Hnorm, Z.log2_mul_pow2; lia.
Qed.

Lemma Z2SF_valid (z : Z) :
  - 2 ^ 53 < z < 2 ^ 53 -> valid_binary (Z2SF z) = true.
Proof.
  intros Hz. destruct z as [|p|p]; [reflexivity|..];
    (assert (Hp : Z.pos p < 2 ^ 53) by lia;
     destruct (norm_spec p Hp) as (Hk & _ & Hlog);
     pose proof (Z.log2_nonneg (Z.pos p));
     unfold Z2SF, valid_binary, SpecFloat.valid_binary, bounded,
       canonical_mantissa, fexp, emin;
     rewrite digits2_pos_log2, Hlog;
     apply andb_true_iff; split; [apply Z.eqb_eq | apply Z.leb_le];
     unfold prec, emax; lia).
Qed.

Lemma Prim2SF_Z_to_float (z : Z) :
  - 2 ^ 53 < z < 2 ^ 53 -> Prim2SF (Z_to_float z) = Z2SF z.
Proof. intros Hz. apply Prim2SF_SF2Prim. by apply Z2SF_valid. Qed.

Lemma Z2SF_not_nan (z : Z) : ~ sf_nan (Z2SF z).
Proof. unfold sf_nan. by destruct z. Qed.

Lemma key_pos_mono (p q : positive) :
  Z.pos q < 2 ^ 53 -> Z.pos p < Z.pos q ->
  lex_lt (key (Z2SF (Z.pos p))) (key (Z2SF (Z.pos q))) /\
  lex_lt (key (Z2SF (Z.neg q))) (key (Z2SF (Z.neg p))).
Proof.
  intros Hq Hpq.
  assert (Hp : Z.pos p < 2 ^ 53) by lia.
  destruct (norm_spec p Hp) as (Hkp & Hnp & _).
  destruct (norm_spec q Hq) as (Hkq & Hnq & _).
  assert (Hlog : Z.log2 (Z.pos p) <= Z.log2 (Z.pos q))
    by (apply Z.log2_le_mono; lia).
  unfold Z2SF, key, lex_lt. rewrite Hnp, Hnq.
  destruct (Z.eq_dec (Z.log2 (Z.pos p)) (Z.log2 (Z.pos q))) as [Heq|Hne].
  - rewrite Heq in *.
    assert (Z.pos p * 2 ^ (52 - Z.log2 (Z.pos q))
            < Z.pos q * 2 ^ (52 - Z.log2 (Z.pos q))).
    { apply Z.mul_lt_mono_pos_r; [by apply Z.pow_pos_nonneg | exact Hpq]. }
    lia.
  - lia.
Qed.

Lemma key_Z2SF_mono (z1 z2 : Z) :
  - 2 ^ 53 < z1 < 2 ^ 53 -> - 2 ^ 53 < z2 < 2 ^ 53 -> z1 < z2 ->
  lex_lt (key (Z2SF z1)) (key (Z2SF z2)).
Proof.
  intros H1 H2 Hlt.
  destruct z1 as [|p|p], z2 as [|q|q]; try lia;
    try (unfold Z2SF, key, lex_lt; lia).
  - apply key_pos_mono; lia.
  - apply (key_pos_mono q p); lia.
Qed.

Lemma key_Z2SF_lt (z1 z2 : Z) :
  - 2 ^ 53 < z1 < 2 ^ 53 -> - 2 ^ 53 < z2 < 2 ^ 53 ->
  lex_lt (key (Z2SF z1)) (key (Z2SF z2)) <-> z1 < z2.
Proof.
  intros H1 H2. split; [|by apply key_Z2SF_mono].
  intros Hlt. pose proof (lex_trichotomy (key (Z2SF z1)) (key (Z2SF z2))) as Ht.
  destruct (Z.lt_trichotomy z1 z2) as [?|[->|Hgt]]; [done|tauto|].
  pose proof (key_Z2SF_mono z2 z1 H2 H1 Hgt). tauto.
Qed.

(** Comparing the floats of two integers is comparing the integers. *)
Lemma Z_to_float_ltb (z1 z2 : Z) :
  - 2 ^ 53 < z1 < 2 ^ 53 -> - 2 ^ 53 < z2 < 2 ^ 53 ->
  (Z_to_float z1 <? Z_to_float z2)%float = (z1 <? z2).
Proof.
  intros H1 H2. apply eq_true_iff_eq.
  rewrite ltb_key, Z.ltb_lt. unfold fkey, fnan.
  rewrite !Prim2SF_Z_to_float by assumption.
  rewrite key_Z2SF_lt by assumption.
  pose proof (Z2SF_not_nan z1). pose proof (Z2SF_not_nan z2). tauto.
Qed.

Lemma Z_to_float_leb (z1 z2 : Z) :
  - 2 ^ 53 < z1 < 2 ^ 53 -> - 2 ^ 53 < z2 < 2 ^ 53 ->
  (Z_to_float z1 <=? Z_to_float z2)%float = (z1 <=? z2).
Proof.
  intros H1 H2. apply eq_true_iff_eq.
  rewrite leb_key, Z.leb_le, lex_le_iff. unfold fkey, fnan.
  rewrite !Prim2SF_Z_to_float by assumption.
  rewrite key_Z2SF_lt by assumption.
  pose proof (Z2SF_not_nan z1). pose proof (Z2SF_not_nan z2).
  pose proof (lex_trichotomy (key (Z2SF z1)) (key (Z2SF z2))) as Ht.
  pose proof (key_Z2SF_lt z1 z2 H1 H2). pose proof (key_Z2SF_lt z2 z1 H2 H1).
  split.
  - intros (_ & _ & [Hlt|Heq]); [lia|].
    destruct (Z.lt_trichotomy z1 z2) as [?|[->|Hgt]]; [lia|lia|].
    exfalso. intuition congruence.
  - intros Hle. split; [done|]. split; [done|].
    destruct (Z.eq_dec z1 z2) as [->|Hne]; [by right|left; lia].
Qed.

Example Z_to_float_50 : Z_to_float 50 = 50%float.
Proof. reflexivity. Qed.
Example Z_to_float_m5 : Z_to_float (-5) = (-5)%float.
Proof. reflexivity. Qed.
Example Z_to_float_100 : Z_to_float 100 = 100%float.
Proof. reflexivity. Qed.

End FloatFacts.

(** ** Recommendation, risk level and exit code *)

Module EvaluationFacts.

Import Evaluator FloatOrder FloatFacts Evaluation Ranges.
Local Open Scope float_scope.

Lemma threshold_keys :
  fkey 40 = (1, -47, 5629499534213120)%Z /\
  fkey 50 = (1, -47, 7036874417766400)%Z /\
  fkey 60 = (1, -47, 8444249301319680)%Z /\
  fkey 75 = (1, -46, 5277655813324800)%Z /\
  fkey 90 = (1, -46, 6333186975989760)%Z.
Proof. repeat split. Qed.

Lemma threshold_not_nan :
  ~ fnan 40 /\ ~ fnan 50 /\ ~ fnan 60 /\ ~ fnan 75 /\ ~ fnan 90.
Proof. unfold fnan, sf_nan. repeat split; vm_compute; discriminate. Qed.

(** Turns comparisons of a float with the thresholds into linear
    arithmetic on its key. *)
Ltac float_order x :=
  repeat match goal with
  | H : (_ <? _)%float = true |- _ => apply ltb_key in H
  | H : (_ <=? _)%float = true |- _ => apply leb_key in H
  | H : (_ <? _)%float = false |- _ => apply ltb_false_key in H
  | H : (_ <=? _)%float = false |- _ => apply leb_false_key in H
  | H : (_ =? _)%float = true |- _ => apply eqb_refl_key in H
  | |- (_ <? _)%float = true => apply ltb_key
  | |- (_ <=? _)%float = true => apply leb_key
  | |- (_ <? _)%float = false => apply ltb_false_key
  | |- (_ <=? _)%float = false => apply leb_false_key
  end;
  destruct threshold_keys as (K40 & K50 & K60 & K75 & K90);
  destruct threshold_not_nan as (N40 & N50 & N60 & N75 & N90);
  rewrite ?K40, ?K50, ?K60, ?K75, ?K90 in *;
  remember (fkey x) as k eqn:Hk; clear Hk; destruct k as [[k1 k2] k3];
  unfold lex_le, lex_lt in *; intuition lia.

Lemma le_90_75 (x : float) : (90 <=? x) = true -> (75 <=? x) = true.
Proof. intros H. float_order x. Qed.
Lemma le_75_60 (x : float) : (75 <=? x) = true -> (60 <=? x) = true.
Proof. intros H. float_order x. Qed.
Lemma le_60_40 (x : float) : (60 <=? x) = true -> (40 <=? x) = true.
Proof. intros H. float_order x. Qed.
Lemma le_75_50 (x : float) : (75 <=? x) = true -> (50 <=? x) = true.
Proof. intros H. float_order x. Qed.
Lemma lt_50_not_le (x : float) : (x <? 50) = true -> (50 <=? x) = false.
Proof. intros H. float_order x. Qed.
Lemma not_le_50 (x : float) :
  (50 <=? x) = false -> (x <? 50) = true \/ (x =? x) = false.
Proof.
  intros H. destruct (x =? x) eqn:Hx; [left|by right].
  float_order x.
Qed.

Lemma leb_trans (x y z : float) :
  (x <=? y) = true -> (y <=? z) = true -> (x <=? z) = true.
Proof.
  intros H1 H2. apply leb_key in H1, H2. apply leb_key.
  destruct (fkey x) as [[a1 a2] a3], (fkey y) as [[b1 b2] b3],
           (fkey z) as [[c1 c2] c3].
  unfold lex_le in *. intuition lia.
Qed.

(** The guards of the four bands are nested. *)
Lemma band_cases (o : float) :
  ((90 <=? o) = true /\ (75 <=? o) = true /\ (60 <=? o) = true /\
   (40 <=? o) = true) \/
  ((90 <=? o) = false /\ (75 <=? o) = true /\ (60 <=? o) = true /\
   (40 <=? o) = true) \/
  ((90 <=? o) = false /\ (75 <=? o) = false /\ (60 <=? o) = true /\
   (40 <=? o) = true) \/
  ((90 <=? o) = false /\ (75 <=? o) = false /\ (60 <=? o) = false /\
   (40 <=? o) = true) \/
  ((90 <=? o) = false /\ (75 <=? o) = false /\ (60 <=? o) = false /\
   (40 <=? o) = false).
Proof.
  pose proof (le_90_75 o). pose proof (le_75_60 o). pose proof (le_60_40 o).
  destruct (90 <=? o), (75 <=? o), (60 <=? o), (40 <=? o); intuition congruence.
Qed.

(** The exit code of each of the eight recommendations. *)
Lemma exit_code_determine (self : results) (o s c : float) :
  let code := exit_code (_determine_recommendation self o s c) in
  let critical := default 0%Z (security_critical_count self) in
  (code = 0%Z <->
   (s <? 50) = false /\ (critical <= 0)%Z /\ (c <? 40) = false /\
   (75 <=? o) = true) /\
  (code = 2%Z <->
   (s <? 50) = false /\ (critical <= 0)%Z /\
   ((c <? 40) = true \/ ((75 <=? o) = false /\ (40 <=? o) = true))) /\
  (code = 1%Z <->
   (s <? 50) = true \/ (0 < critical)%Z \/
   ((c <? 40) = false /\ (40 <=? o) = false)).
Proof.
  cbv zeta. unfold _determine_recommendation.
  destruct (s <? 50) eqn:Hs;
    [vm_compute exit_code; intuition (discriminate || lia)|].
  destruct (0 <? default 0%Z (security_critical_count self))%Z eqn:Hcc;
    [apply Z.ltb_lt in Hcc; vm_compute exit_code; intuition (discriminate || lia)
    |apply Z.ltb_ge in Hcc].
  destruct (c <? 40) eqn:Hc;
    [vm_compute exit_code; intuition (discriminate || lia)|].
  destruct (band_cases o) as
    [(H90 & H75 & H60 & H40)|[(H90 & H75 & H60 & H40)
    |[(H90 & H75 & H60 & H40)|[(H90 & H75 & H60 & H40)
    |(H90 & H75 & H60 & H40)]]]];
    rewrite ?H90, ?H75, ?H60, ?H40; vm_compute exit_code;
    intuition (discriminate || lia).
Qed.

Ltac string_neq :=
  let H := fresh in
  intros H; apply String.eqb_eq in H; vm_compute in H; discriminate H.

Lemma nan_not_le (x c : float) : (x =? x) = false -> (c <=? x) = false.
Proof.
  intros H. apply leb_false_key. right. left.
  destruct (sf_nan_dec (Prim2SF x)) as [Hn|Hn]; [exact Hn|].
  apply eqb_refl_key in Hn. congruence.
Qed.

Lemma risk_critical_iff (s : float) :
  _determine_risk_level s = "Critical" <-> (50 <=? s) = false.
Proof.
  unfold _determine_risk_level.
  pose proof (le_90_75 s) as H1. pose proof (le_75_50 s) as H2.
  destruct (90 <=? s), (75 <=? s), (50 <=? s);
    try (specialize (H1 eq_refl)); try (specialize (H2 eq_refl));
    try discriminate; split; try done; string_neq.
Qed.

Lemma not_le_50_iff (s : float) :
  (50 <=? s) = false <-> (s <? 50) = true \/ (s =? s) = false.
Proof.
  split; [apply not_le_50|].
  intros [H|H]; [by apply lt_50_not_le | by apply nan_not_le].
Qed.

Lemma recommendation_block_iff (self : results) (o s c : float) :
  _determine_recommendation self o s c
  = "❌ DO NOT INSTALL - Critical security risks" <-> (s <? 50) = true.
Proof.
  unfold _determine_recommendation. destruct (s <? 50); [done|].
  split; [|discriminate].
  repeat (match goal with |- context [if ?b then _ else _] => destruct b end);
    string_neq.
Qed.

(** X12. The hard block of rule 1 and the risk level Critical go together:
    the recommendation is the block of rule 1 exactly when the security
    score is below 50, and the risk level is Critical exactly then or when
    the score is not a number. *)
Theorem block_iff_critical_risk (self : results) :
  let o := calculate_overall_score self in
  (recommendation o = "❌ DO NOT INSTALL - Critical security risks" <->
   (security_score self <? 50) = true) /\
  (risk_level o = "Critical" <->
   (security_score self <? 50) = true \/
   (security_score self =? security_score self) = false).
Proof.
  cbv zeta. unfold calculate_overall_score. cbn [recommendation risk_level].
  split; [apply recommendation_block_iff|].
  rewrite risk_critical_iff. apply not_le_50_iff.
Qed.

(** X13. The exit code of [main] for the result of
    [calculate_overall_score]: 0 exactly when no override applies and the
    weighted overall is at least 75; 2 when no hard block applies and
    either compliance is below 40 or the overall is in [40, 75); 1 when the
    security score is below 50, a critical finding is counted, or
    compliance is at least 40 and the overall is below 40. *)
Theorem exit_code_table (self : results) :
  let o := calculate_overall_score self in
  let code := exit_code (recommendation o) in
  let critical := default 0%Z (security_critical_count self) in
  (code = 0%Z <->
   (security_score self <? 50) = false /\ (critical <= 0)%Z /\
   (compliance_score self <? 40) = false /\ (75 <=? overall o) = true) /\
  (code = 2%Z <->
   (security_score self <? 50) = false /\ (critical <= 0)%Z /\
   ((compliance_score self <? 40) = true \/
    ((75 <=? overall o) = false /\ (40 <=? overall o) = true))) /\
  (code = 1%Z <->
   (security_score self <? 50) = true \/ (0 < critical)%Z \/
   ((compliance_score self <? 40) = false /\ (40 <=? overall o) = false)).
Proof.
  cbv zeta. unfold calculate_overall_score. cbn [recommendation overall].
  apply exit_code_determine.
Qed.

(** X14. A higher weighted overall never gives a worse outcome, the other
    inputs being the same: if the lower overall exits with 0 so does the
    higher, and if the higher exits with 1 so does the lower. *)
Theorem recommendation_monotone (self : results) (o1 o2 s c : float) :
  (o1 <=? o2) = true ->
  (exit_code (_determine_recommendation self o1 s c) = 0%Z ->
   exit_code (_determine_recommendation self o2 s c) = 0%Z) /\
  (exit_code (_determine_recommendation self o2 s c) = 1%Z ->
   exit_code (_determine_recommendation self o1 s c) = 1%Z).
Proof.
  intros Hle.
  destruct (exit_code_determine self o1 s c) as (H10 & _ & H11).
  destruct (exit_code_determine self o2 s c) as (H20 & _ & H21).
  cbv zeta in *. split.
  - rewrite H10, H20. intros (? & ? & ? & H75). repeat split; try done.
    by apply (leb_trans 75 o1 o2).
  - rewrite H11, H21. intros [?|[?|[? H40]]]; [by left | by right; left |].
    right. right. split; [done|].
    destruct (40 <=? o1) eqn:Ho1; [|done].
    by rewrite (leb_trans 40 o1 o2 Ho1 Hle) in H40.
Qed.

Lemma recommendation_monotone_witness :
  let self := Rules.unblocked in
  (exit_code (_determine_recommendation self 79 50 100) = 0%Z ->
   exit_code (_determine_recommendation self 95 50 100) = 0%Z) /\
  (exit_code (_determine_recommendation self 95 50 100) = 1%Z ->
   exit_code (_determine_recommendation self 79 50 100) = 1%Z).
Proof.
  apply (recommendation_monotone Rules.unblocked 79 95 50 100).
  reflexivity.
Defined.

(** ** From the scan to the recommendation *)

Lemma score_90_iff_clean (found : list SecurityIssue) :
  (90 <= calculate_security_score found)%Z <-> found = [].
Proof.
  rewrite calculate_security_score_eq, count_severity_nil_iff.
  unfold tier_score.
  pose proof (count_severity_nonneg CRITICAL found).
  pose proof (count_severity_nonneg HIGH found).
  pose proof (count_severity_nonneg MEDIUM found).
  pose proof (count_severity_nonneg LOW found).
  destruct (0 <? count_severity CRITICAL found)%Z eqn:Hc;
    [apply Z.ltb_lt in Hc; lia | apply Z.ltb_ge in Hc].
  destruct (0 <? count_severity HIGH found)%Z eqn:Hh;
    [apply Z.ltb_lt in Hh; lia | apply Z.ltb_ge in Hh].
  destruct (0 <? count_severity MEDIUM found)%Z eqn:Hm;
    [apply Z.ltb_lt in Hm; lia | apply Z.ltb_ge in Hm].
  destruct (0 <? count_severity LOW found)%Z eqn:Hl;
    [apply Z.ltb_lt in Hl; lia | apply Z.ltb_ge in Hl].
  lia.
Qed.

Lemma gather_security (mode : string) (a : analysis)
    (quality utility compliance : float) :
  security_score (gather mode a quality utility compliance)
    = Z_to_float (score a) /\
  security_critical_count (gather mode a quality utility compliance)
    = Some (critical_count a) /\
  compliance_score (gather mode a quality utility compliance) = compliance.
Proof.
  unfold gather. destruct (String.eqb mode "security"); [done|].
  by destruct (String.eqb mode "pre-publish").
Qed.

Lemma score_float_lt (z k : Z) :
  (- 2 ^ 53 < z <= 100)%Z -> (0 <= k <= 100)%Z ->
  (Z_to_float z <? Z_to_float k) = (z <? k)%Z /\
  (Z_to_float k <=? Z_to_float z) = (k <=? z)%Z.
Proof.
  intros Hz Hk. split; [apply Z_to_float_ltb | apply Z_to_float_leb]; lia.
Qed.

(** X15. From the scan to the recommendation: when the analysis counts a
    CRITICAL finding the recommendation is the block of rule 1, the risk
    level is Critical and [main] exits with 1; rule 2 is never the rule that
    decides, since a counted CRITICAL finding already puts the score below
    50; and the risk level is Low exactly when the scan found nothing. *)
Theorem scan_to_recommendation
    (re_search : string -> string -> re_result) (tree : list entry)
    (mode : string) (quality utility compliance : float) :
  let a := analyze re_search tree in
  let o := calculate_overall_score
             (gather mode a quality utility compliance) in
  (- 2 ^ 53 < score a)%Z ->
  ((0 < critical_count a)%Z ->
   recommendation o = "❌ DO NOT INSTALL - Critical security risks" /\
   risk_level o = "Critical" /\ exit_code (recommendation o) = 1%Z) /\
  recommendation o <> "❌ DO NOT INSTALL - Critical vulnerabilities found" /\
  (risk_level o = "Low" <-> analysis_issues a = []).
Proof.
  cbv zeta. intros Hbound.
  set (a := analyze re_search tree) in *.
  destruct (gather_security mode a quality utility compliance)
    as (Hsec & Hcc & _).
  assert (Hle : (score a <= 100)%Z) by apply calculate_security_score_le_100.
  assert (Hlt50 : (Z_to_float (score a) <? 50) = (score a <? 50)%Z).
  { apply (score_float_lt (score a) 50); lia. }
  assert (Hcrit : (0 < critical_count a)%Z -> (score a <? 50)%Z = true).
  { intros Hpos. apply Z.ltb_lt.
    change (score a) with (calculate_security_score (analysis_issues a)).
    rewrite calculate_security_score_eq. unfold tier_score.
    change (count_severity CRITICAL (analysis_issues a))
      with (critical_count a).
    apply Z.ltb_lt in Hpos. rewrite Hpos. lia. }
  unfold calculate_overall_score. cbn [recommendation risk_level].
  rewrite Hsec. split; [|split].
  - intros Hpos. specialize (Hcrit Hpos).
    assert (Hrec : _determine_recommendation
              (gather mode a quality utility compliance)
              (weighted_overall (gather mode a quality utility compliance))
              (Z_to_float (score a))
              (compliance_score (gather mode a quality utility compliance))
            = "❌ DO NOT INSTALL - Critical security risks").
    { apply recommendation_block_iff. by rewrite Hlt50. }
    rewrite Hrec. split; [reflexivity|]. split; [|by vm_compute].
    apply risk_critical_iff, lt_50_not_le. by rewrite Hlt50.
  - unfold _determine_recommendation. rewrite Hlt50, Hcc.
    change (default 0%Z (Some (critical_count a))) with (critical_count a).
    destruct (score a <? 50)%Z eqn:Hs; [string_neq|].
    destruct (0 <? critical_count a)%Z eqn:Hc;
      [apply Z.ltb_lt, Hcrit in Hc; congruence|].
    repeat (match goal with |- context [if ?b then _ else _] => destruct b end);
      string_neq.
  - rewrite <- (score_90_iff_clean (analysis_issues a)).
    change (calculate_security_score (analysis_issues a)) with (score a).
    rewrite <- Z.leb_le.
    destruct (score_float_lt (score a) 90) as [_ H90]; [lia|lia|].
    change (Z_to_float 90) with 90 in H90. rewrite <- H90.
    unfold _determine_risk_level.
    destruct (90 <=? Z_to_float (score a)); [done|].
    split; [|discriminate].
    repeat (match goal with |- context [if ?b then _ else _] => destruct b end);
      string_neq.
Qed.

Lemma scan_to_recommendation_witness :
  let a := analyze sample_search [run_py six_calls] in
  let o := calculate_overall_score (gather "full" a 100 100 100) in
  ((0 < critical_count a)%Z ->
   recommendation o = "❌ DO NOT INSTALL - Critical security risks" /\
   risk_level o = "Critical" /\ exit_code (recommendation o) = 1%Z) /\
  recommendation o <> "❌ DO NOT INSTALL - Critical vulnerabilities found" /\
  (risk_level o = "Low" <-> analysis_issues a = []).
Proof.
  apply (scan_to_recommendation sample_search [run_py six_calls] "full"
           100 100 100).
  vm_compute. reflexivity.
Defined.

(** ** The modes of [evaluate] *)


Lemma In_Z_range (lo : Z) (n : nat) (z : Z) :
  (lo <= z < lo + Z.of_nat n)%Z -> In z (Z_range lo n).
Proof.
  intros Hz. unfold Z_range. apply in_map_iff.
  exists (Z.to_nat (z - lo)). split; [lia|]. apply in_seq. lia.
Qed.


Lemma security_mode_overall_low (security compliance : Z) :
  (50 <= security <= 100)%Z -> (0 <= compliance <= 100)%Z ->
  (60 <=? security_mode_overall security compliance) = false.
Proof.
  intros Hs Hc.
  assert (Hall : forallb (fun s => forallb (fun c =>
            negb (60 <=? security_mode_overall s c)) (Z_range 0 101))
            (Z_range 50 51) = true) by (vm_compute; reflexivity).
  rewrite forallb_forall in Hall.
  specialize (Hall security (In_Z_range 50 51 security ltac:(lia))).
  rewrite forallb_forall in Hall.
  specialize (Hall compliance (In_Z_range 0 101 compliance ltac:(lia))).
  by apply negb_true_iff in Hall.
Qed.

(** X16. In security mode quality and utility count as 0, so the weighted
    overall is at most 55: for a whole compliance score between 0 and 100
    the recommendation is never one of the two recommended bands nor "use
    with caution", and [main] never exits with 0. *)
Theorem security_mode_never_recommended
    (re_search : string -> string -> re_result) (tree : list entry)
    (quality utility : float) (compliance : Z) :
  let a := analyze re_search tree in
  let o := calculate_overall_score
             (gather "security" a quality utility (Z_to_float compliance)) in
  (- 2 ^ 53 < score a)%Z -> (0 <= compliance <= 100)%Z ->
  exit_code (recommendation o) <> 0%Z /\
  recommendation o <> "✅ HIGHLY RECOMMENDED" /\
  recommendation o <> "✅ RECOMMENDED" /\
  recommendation o <> "⚠️ USE WITH CAUTION".
Proof.
  cbv zeta. intros Hbound Hc.
  set (a := analyze re_search tree) in *.
  assert (Hle : (score a <= 100)%Z) by apply calculate_security_score_le_100.
  assert (Hlt50 : (Z_to_float (score a) <? 50) = (score a <? 50)%Z).
  { apply (score_float_lt (score a) 50); lia. }
  unfold calculate_overall_score. cbn [recommendation].
  change (weighted_overall
            (gather "security" a quality utility (Z_to_float compliance)))
    with (security_mode_overall (score a) compliance).
  change (security_score
            (gather "security" a quality utility (Z_to_float compliance)))
    with (Z_to_float (score a)).
  set (self := gather "security" a quality utility (Z_to_float compliance)).
  set (w := security_mode_overall (score a) compliance).
  set (c := compliance_score self).
  assert (Hband : (score a <? 50)%Z = false ->
            (60 <=? w) = false /\ (75 <=? w) = false /\ (90 <=? w) = false).
  { intros Hs. apply Z.ltb_ge in Hs.
    assert (H60 : (60 <=? w) = false)
      by (apply security_mode_overall_low; lia).
    pose proof (le_90_75 w). pose proof (le_75_60 w).
    destruct (75 <=? w), (90 <=? w); intuition congruence. }
  split.
  - intros Hcode.
    apply (proj1 (exit_code_determine self w (Z_to_float (score a)) c))
      in Hcode as (Hs & _ & _ & H75).
    rewrite Hlt50 in Hs. destruct (Hband Hs) as (_ & H75' & _). congruence.
  - unfold _determine_recommendation. rewrite Hlt50.
    destruct (score a <? 50)%Z eqn:Hs; [repeat split; string_neq|].
    destruct (Hband eq_refl) as (H60 & H75 & H90). rewrite H60, H75, H90.
    repeat split;
      repeat (match goal with |- context [if ?b then _ else _] =>
                destruct b end); string_neq.
Qed.

Lemma security_mode_never_recommended_witness :
  let a := analyze sample_search [clean_py] in
  let o := calculate_overall_score
             (gather "security" a 100 100 (Z_to_float 100)) in
  (score a = 100%Z /\ overall o = 55) /\
  exit_code (recommendation o) <> 0%Z /\
  recommendation o <> "✅ HIGHLY RECOMMENDED" /\
  recommendation o <> "✅ RECOMMENDED" /\
  recommendation o <> "⚠️ USE WITH CAUTION".
Proof.
  split; [split; reflexivity|].
  apply (security_mode_never_recommended sample_search [clean_py]
           100 100 100).
  - vm_compute. reflexivity.
  - lia.
Defined.

End EvaluationFacts.
